(** * Service-plan SKU classification, Service Bus subscription lookup and
      Purview account read of the AzureRM Terraform provider

    A shallow embedding of
    - [internal/services/appservice/helpers/service_plan.go],
    - [internal/services/servicebus/servicebus_subscription_data_source.go],
    - the Purview account resource ([resourcePurviewAccountRead]),
    together with the parts of the Go standard library the code calls
    ([strings.EqualFold], [strings.HasPrefix], [utf8.DecodeRuneInString])
    and the resource-identifier codec the adapters consume. *)

From Stdlib Require Import ZArith Lia Bool List Sorted Ascii String DecimalString.
From stdpp Require Import base gmap strings.
Import ListNotations.

Local Open Scope string_scope.
Local Open Scope Z_scope.

(* ===================================================================== *)
(** * Go strings: byte sequences *)
(* ===================================================================== *)

(** A Go [string] is an immutable byte sequence; it is modelled by Rocq's
    [string] (a list of 8-bit [ascii] values).  This module holds the
    built-in operations: indexing, [len] and slicing. *)
Module gostring.

(** [s[i]] as an integer. *)
Definition byte (a : ascii) : Z := Z.of_N (N_of_ascii a).

(** [len(s)]. *)
Definition len (s : string) : nat := String.length s.

(** [s[n:]] (the empty string when [n] exceeds the length; the callers below
    never slice further than [len(s)]). *)
Fixpoint skip (n : nat) (s : string) : string :=
  match n, s with
  | O, _ => s
  | S n', String _ s' => skip n' s'
  | S _, EmptyString => EmptyString
  end.

(** [s[:n]]. *)
Definition take (n : nat) (s : string) : string := substring 0 n s.

End gostring.

(* ===================================================================== *)
(** * UTF-8 decoding ([unicode/utf8]) *)
(* ===================================================================== *)

Module utf8.
Import gostring.

Definition RuneError : Z := 0xFFFD.
Definition RuneSelf : Z := 0x80.
Definition MaxRune : Z := 0x10FFFF.

Definition maskx : Z := 0x3F.
Definition mask2 : Z := 0x1F.
Definition mask3 : Z := 0x0F.
Definition mask4 : Z := 0x07.

Definition locb : Z := 0x80.
Definition hicb : Z := 0xBF.

(** The entries of the [first] table: [as] for ASCII, [xx] for an invalid
    lead byte, otherwise size in the low three bits and the index of the
    accept range in the high four. *)
Definition xx : Z := 0xF1.
Definition as_ : Z := 0xF0.
Definition s1 : Z := 0x02.
Definition s2 : Z := 0x13.
Definition s3 : Z := 0x03.
Definition s4 : Z := 0x23.
Definition s5 : Z := 0x34.
Definition s6 : Z := 0x04.
Definition s7 : Z := 0x44.

(** [first[b]]: information about the first byte of an encoding. *)
Definition first (b : Z) : Z :=
  if b <? 0x80 then as_
  else if b <? 0xC2 then xx
  else if b <? 0xE0 then s1
  else if b =? 0xE0 then s2
  else if b <? 0xED then s3
  else if b =? 0xED then s4
  else if b <? 0xF0 then s3
  else if b =? 0xF0 then s5
  else if b <? 0xF4 then s6
  else if b =? 0xF4 then s7
  else xx.

(** [acceptRanges[i]]: the range allowed for the second byte. *)
Definition acceptRanges (i : Z) : Z * Z :=
  if i =? 0 then (locb, hicb)
  else if i =? 1 then (0xA0, hicb)
  else if i =? 2 then (locb, 0x9F)
  else if i =? 3 then (0x90, hicb)
  else if i =? 4 then (locb, 0x8F)
  else (0, 0).

Definition out_of (lo hi b : Z) : bool := (b <? lo) || (hi <? b).

(** [utf8.DecodeRuneInString]: the first rune of [s] and its width in bytes;
    [(RuneError, 0)] on the empty string and [(RuneError, 1)] on an invalid
    encoding. *)
Definition DecodeRuneInString (s : string) : Z * nat :=
  match s with
  | EmptyString => (RuneError, 0%nat)
  | String c0 rest0 =>
      let s0 := byte c0 in
      let x := first s0 in
      if as_ <=? x then
        ((if Z.testbit x 0 then RuneError else s0), 1%nat)
      else
        let sz := Z.to_nat (Z.land x 7) in
        let accept := acceptRanges (Z.shiftr x 4) in
        if (len s <? sz)%nat then (RuneError, 1%nat)
        else
          match rest0 with
          | EmptyString => (RuneError, 1%nat)
          | String c1 rest1 =>
              let b1 := byte c1 in
              if out_of (fst accept) (snd accept) b1 then (RuneError, 1%nat)
              else if (sz <=? 2)%nat then
                (Z.lor (Z.shiftl (Z.land s0 mask2) 6) (Z.land b1 maskx), 2%nat)
              else
                match rest1 with
                | EmptyString => (RuneError, 1%nat)
                | String c2 rest2 =>
                    let b2 := byte c2 in
                    if out_of locb hicb b2 then (RuneError, 1%nat)
                    else if (sz <=? 3)%nat then
                      (Z.lor (Z.lor (Z.shiftl (Z.land s0 mask3) 12)
                                    (Z.shiftl (Z.land b1 maskx) 6))
                             (Z.land b2 maskx), 3%nat)
                    else
                      match rest2 with
                      | EmptyString => (RuneError, 1%nat)
                      | String c3 _ =>
                          let b3 := byte c3 in
                          if out_of locb hicb b3 then (RuneError, 1%nat)
                          else
                            (Z.lor (Z.lor (Z.lor
                               (Z.shiftl (Z.land s0 mask4) 18)
                               (Z.shiftl (Z.land b1 maskx) 12))
                               (Z.shiftl (Z.land b2 maskx) 6))
                               (Z.land b3 maskx), 4%nat)
                      end
                end
          end
  end.

(** The runes a [for _, r := range s] loop visits: each iteration decodes
    one rune and advances by its width.  Every iteration consumes at least
    one byte, so [len(s)] iterations always reach the end of [s]. *)
Fixpoint range_from (n : nat) (s : string) : list Z :=
  match n with
  | O => []
  | S n' =>
      match s with
      | EmptyString => []
      | _ => let '(r, size) := DecodeRuneInString s in
             r :: range_from n' (skip size s)
      end
  end.

Definition range (s : string) : list Z := range_from (len s) s.

End utf8.

(* ===================================================================== *)
(** * Case folding ([unicode.SimpleFold], [strings.EqualFold]) *)
(* ===================================================================== *)

(** The Unicode case-folding data ([unicode.CaseRanges], [caseOrbit]) is not
    part of the repository.  It is a parameter: [caseOrbit r] lists, in
    increasing order, the code points equivalent to [r] under simple case
    folding, [r] included. *)
Class CaseFolding := { caseOrbit : Z -> list Z }.

(** What the Unicode tables guarantee: every orbit is increasing and contains
    its rune, equivalent runes share their orbit, and below [RuneSelf] the
    only equivalences are those between an upper-case ASCII letter and its
    lower-case form. *)
Record CaseFoldingLaws (F : CaseFolding) : Prop := {
  orbit_sorted : forall r, StronglySorted Z.lt (caseOrbit r);
  orbit_self : forall r, In r (caseOrbit r);
  orbit_shared : forall r r', In r' (caseOrbit r) -> caseOrbit r' = caseOrbit r;
  orbit_ascii : forall a b, a < b -> b < utf8.RuneSelf ->
      (In b (caseOrbit a) <-> 65 <= a <= 90 /\ b = a + 32)
}.

(** The orbits that meet ASCII: the letters, with the Kelvin sign (U+212A)
    next to [K]/[k] and the long s (U+017F) next to [S]/[s]; every other code
    point is alone.  This table serves for evaluating the code on concrete
    inputs. *)
Definition asciiOrbit (r : Z) : list Z :=
  if (r =? 0x4B) || (r =? 0x6B) || (r =? 0x212A) then [0x4B; 0x6B; 0x212A]
  else if (r =? 0x53) || (r =? 0x73) || (r =? 0x17F) then [0x53; 0x73; 0x17F]
  else if (65 <=? r) && (r <=? 90) then [r; r + 32]
  else if (97 <=? r) && (r <=? 122) then [r - 32; r]
  else [r].

Definition asciiFolding : CaseFolding := {| caseOrbit := asciiOrbit |}.

Module unicode.

(** [unicode.SimpleFold]: among the code points equivalent to [r], the
    smallest one greater than [r] if there is one, else the smallest one. *)
Definition SimpleFold `{CF : CaseFolding} (r : Z) : Z :=
  match List.filter (fun x => r <? x) (caseOrbit r) with
  | x :: _ => x
  | [] => hd r (caseOrbit r)
  end.

End unicode.

Module strings.
Import gostring.

(** [strings.HasPrefix]:
    [return len(s) >= len(prefix) && s[:len(prefix)] == prefix]. *)
Definition HasPrefix (s prefix : string) : bool :=
  (len prefix <=? len s)%nat && String.eqb (take (len prefix) s) prefix.

(** [strings.Split(s, sep)] for a one-byte separator: the substrings between
    the separators, in order; always at least one element. *)
Fixpoint Split (sep : ascii) (s : string) : list string :=
  match s with
  | EmptyString => [EmptyString]
  | String c s' =>
      if Ascii.eqb c sep then EmptyString :: Split sep s'
      else match Split sep s' with
           | h :: t => String c h :: t
           | [] => [String c EmptyString]
           end
  end.

(** [strings.Join(elems, sep)]. *)
Fixpoint Join (sep : string) (elems : list string) : string :=
  match elems with
  | [] => EmptyString
  | [e] => e
  | e :: rest => e +:+ sep +:+ Join sep rest
  end.


(** The loop [for r != sr && r < tr { r = unicode.SimpleFold(r) }]; it walks
    the orbit of [sr], so as many iterations as the orbit has runes are
    enough. *)
Fixpoint foldWalk `{CF : CaseFolding} (n : nat) (sr tr r : Z) : Z :=
  match n with
  | O => r
  | S n' =>
      if negb (r =? sr) && (r <? tr) then foldWalk n' sr tr (unicode.SimpleFold r)
      else r
  end.

(** The body of the rune loop of [EqualFold]: are [sr] and [tr] equal under
    simple case folding? *)
Definition equalFoldRune `{CF : CaseFolding} (sr tr : Z) : bool :=
  (* Easy case. *)
  if tr =? sr then true
  else
    (* Make sr < tr to simplify what follows. *)
    let '(sr, tr) := if tr <? sr then (tr, sr) else (sr, tr) in
    if tr <? utf8.RuneSelf then
      (* ASCII only, sr/tr must be upper/lower case *)
      (65 <=? sr) && (sr <=? 90) && (tr =? sr + 32)
    else
      (* General case. SimpleFold(x) returns the next equivalent rune > x
         or wraps around to smaller values. *)
      let r := unicode.SimpleFold sr in
      foldWalk (length (caseOrbit sr)) sr tr r =? tr.

(** [sr] and [tr] are equal under simple case folding, as [EqualFold]
    decides it. *)
Definition foldsTo `{CF : CaseFolding} (sr tr : Z) : Prop := equalFoldRune sr tr = true.

(** The [hasUnicode] part of [EqualFold]: [for _, sr := range s], taking one
    rune off the front of [t] in every iteration. *)
Fixpoint equalFoldRunes `{CF : CaseFolding} (rs : list Z) (t : string) : bool :=
  match rs with
  | [] =>
      (* First string is empty, so check if the second one is also empty. *)
      (len t =? 0)%nat
  | sr :: rs' =>
      match t with
      | EmptyString => false
      | String t0 t1 =>
          let '(tr, t') :=
            if byte t0 <? utf8.RuneSelf then (byte t0, t1)
            else let '(r, size) := utf8.DecodeRuneInString t in (r, skip size t) in
          if equalFoldRune sr tr then equalFoldRunes rs' t' else false
      end
  end.

(** [strings.EqualFold]: the ASCII fast path compares byte by byte and hands
    over to the rune loop at the first byte that is not ASCII. *)
Fixpoint EqualFold `{CF : CaseFolding} (s t : string) : bool :=
  match s, t with
  | String s0 s', String t0 t' =>
      let sr := byte s0 in
      let tr := byte t0 in
      if utf8.RuneSelf <=? Z.lor sr tr then equalFoldRunes (utf8.range s) t
      else if tr =? sr then EqualFold s' t'
      else
        let '(sr, tr) := if tr <? sr then (tr, sr) else (sr, tr) in
        if (65 <=? sr) && (sr <=? 90) && (tr =? sr + 32) then EqualFold s' t'
        else false
  | _, _ =>
      (* Check if we've exhausted both strings. *)
      (len s =? len t)%nat
  end.

End strings.

(* ===================================================================== *)
(** * Resource identifier codec *)
(* ===================================================================== *)

(** The codec lives in the SDK packages the adapters import
    ([subscriptions.ParseTopicID], [parse.AccountID], ...), outside the files
    embedded here. *)
Module resourceids.
Import strings.

(** Modelled from the spec: the failure of [Parse], which is missing from
    the sources: "Fails with a MalformedIdentifierError". *)
Inductive ParseError := MalformedIdentifierError.

(** Modelled from the spec: the Resource Identifier, which is missing from
    the sources: "a value type with fields: subscription, resource group,
    zero or more parent-scope names (e.g., namespace, topic), and a leaf
    name".  [names] holds the parent-scope names followed by the leaf name. *)
Record Identifier := {
  subscription : string;
  resourceGroup : string;
  names : list string
}.

(** Modelled from the spec: the expected shape of a path, which is missing
    from the sources: the provider and the type keywords of
    "/subscriptions/{sub}/resourceGroups/{rg}/providers/{provider}/{type}/{name}[/{childType}/{childName}...]". *)
Record ResourceType := {
  provider : string;
  types : list string
}.

(** One segment of the expected shape: a fixed keyword literal or a value. *)
Inductive Segment :=
  | Keyword (literal : string)
  | ValueSegment.

Definition scopedShape (ks : list string) : list Segment :=
  flat_map (fun k => [Keyword k; ValueSegment]) ks.

Definition shapeOf (rt : ResourceType) : list Segment :=
  ([Keyword "subscriptions"; ValueSegment;
   Keyword "resourceGroups"; ValueSegment;
   Keyword "providers"; Keyword (provider rt)] ++ scopedShape (types rt))%list.

(** Modelled from the spec: the validation of [Parse], which is missing from
    the sources: "validates the expected alternating keyword/value structure
    ... Fails ... when: the segment count does not match the expected shape,
    a required keyword segment doesn't match (case-insensitive) its expected
    literal, or any value segment is empty".  The values are returned in
    order; [None] stands for the failure. *)
Fixpoint parseSegments `{CF : CaseFolding} (shape : list Segment) (segs : list string)
  : option (list string) :=
  match shape, segs with
  | [], [] => Some []
  | Keyword lit :: shape', seg :: segs' =>
      if strings.EqualFold seg lit then parseSegments shape' segs' else None
  | ValueSegment :: shape', seg :: segs' =>
      if String.eqb seg "" then None
      else option_map (cons seg) (parseSegments shape' segs')
  | _, _ => None
  end.

Definition ofFields (vals : list string) : option Identifier :=
  match vals with
  | sub :: rg :: ns => Some {| subscription := sub; resourceGroup := rg; names := ns |}
  | _ => None
  end.

Definition fields (id : Identifier) : list string :=
  subscription id :: resourceGroup id :: names id.

(** Modelled from the spec: [Parse], which is missing from the sources:
    "splits the path on "/" delimiters, validates the expected alternating
    keyword/value structure, extracts subscription, resource group, and
    scoped names in order ... No partial results are returned on failure."
    The canonical form starts with the delimiter, so the first piece of the
    split is empty. *)
Definition Parse `{CF : CaseFolding} (rt : ResourceType) (path : string)
  : ParseError + Identifier :=
  match Split "/" path with
  | lead :: segs =>
      if String.eqb lead "" then
        match parseSegments (shapeOf rt) segs with
        | Some vals =>
            match ofFields vals with
            | Some id => inr id
            | None => inl MalformedIdentifierError
            end
        | None => inl MalformedIdentifierError
        end
      else inl MalformedIdentifierError
  | [] => inl MalformedIdentifierError
  end.

(** The segments of the canonical path: the keyword literals of the shape
    with the field values in their places. *)
Fixpoint fill (shape : list Segment) (vals : list string) : list string :=
  match shape with
  | [] => []
  | Keyword lit :: shape' => lit :: fill shape' vals
  | ValueSegment :: shape' =>
      match vals with
      | v :: vals' => v :: fill shape' vals'
      | [] => "" :: fill shape' []
      end
  end.

(** Modelled from the spec: [Format], which is missing from the sources:
    "deterministically reconstructs the canonical path string using fixed
    keyword literals and the identifier's field values in fixed order. No
    validation is performed at format time". *)
Definition Format (rt : ResourceType) (id : Identifier) : string :=
  Join "/" ("" :: fill (shapeOf rt) (fields id)).

(** A valid canonical path: it splits into an empty lead followed by exactly
    the segments of the shape, every keyword spelled as its literal and every
    value non-empty. *)
Fixpoint canonicalSegments (shape : list Segment) (segs : list string) : bool :=
  match shape, segs with
  | [], [] => true
  | Keyword lit :: shape', seg :: segs' =>
      String.eqb seg lit && canonicalSegments shape' segs'
  | ValueSegment :: shape', seg :: segs' =>
      negb (String.eqb seg "") && canonicalSegments shape' segs'
  | _, _ => false
  end.

Definition canonical (rt : ResourceType) (path : string) : bool :=
  match Split "/" path with
  | lead :: segs => String.eqb lead "" && canonicalSegments (shapeOf rt) segs
  | [] => false
  end.

End resourceids.

(* ===================================================================== *)
(** * [internal/services/appservice/helpers/service_plan.go] *)
(* ===================================================================== *)

Module helpers.

Definition ServicePlanTypeAppPlan : string := "app".
Definition ServicePlanTypeConsumption : string := "consumption".
Definition ServicePlanTypeElastic : string := "elastic".
Definition ServicePlanTypeFlexConsumption : string := "flexconsumption".
Definition ServicePlanTypeIsolated : string := "isolated".
Definition ServicePlanTypePremium : string := "premium".
Definition ServicePlanTypeWorkflow : string := "workflow".

Definition appServicePlanSkus : list string :=
  ["B1"; "B2"; "B3"; (* basic *)
   "S1"; "S2"; "S3" (* standard *)].

Definition freeSkus : list string := ["F1"].

Definition sharedSkus : list string := ["D1"; "SHARED"].

Definition consumptionSkus : list string := ["Y1"].

Definition premiumSkus : list string :=
  ["P1v2"; "P2v2"; "P3v2"; (* Premium V2 *)
   "P0v3"; "P1v3"; "P2v3"; "P3v3"; (* Premium V3 *)
   "P1mv3"; "P2mv3"; "P3mv3"; "P4mv3"; "P5mv3" (* Premium V3 memory optimized *)].

Definition flexConsumptionSkus : list string := ["FC1"].

Definition elasticSkus : list string := ["EP1"; "EP2"; "EP3"].

Definition isolatedSkus : list string :=
  ["I1"; "I2"; "I3"; (* Isolated V1 - ASEV2 *)
   "I1v2"; "I2v2"; "I3v2"; "I4v2"; "I5v2"; "I6v2"; (* Isolated v2 - ASEv3 *)
   "I1mv2"; "I2mv2"; "I3mv2"; "I4mv2"; "I5mv2" (* Isolated v2 - ASEv3 memory optimized *)].

Definition workflowSkus : list string := ["WS1"; "WS2"; "WS3"].

(** [AllKnownServicePlanSkus] returns a list of all supported known SKU names. *)
Definition AllKnownServicePlanSkus : list string :=
  let allSkus : list string := [] in
  let allSkus := (allSkus ++ appServicePlanSkus)%list in
  let allSkus := (allSkus ++ consumptionSkus)%list in
  let allSkus := (allSkus ++ elasticSkus)%list in
  let allSkus := (allSkus ++ flexConsumptionSkus)%list in
  let allSkus := (allSkus ++ freeSkus)%list in
  let allSkus := (allSkus ++ isolatedSkus)%list in
  let allSkus := (allSkus ++ premiumSkus)%list in
  let allSkus := (allSkus ++ sharedSkus)%list in
  let allSkus := (allSkus ++ workflowSkus)%list in
  allSkus.

(** The loop shared by the [PlanIs...] functions:
    [for _, v := range skus { if strings.EqualFold(input, v) { return true } }
     return false]. *)
Fixpoint anyEqualFold `{CF : CaseFolding} (input : string) (skus : list string) : bool :=
  match skus with
  | [] => false
  | v :: rest => if strings.EqualFold input v then true else anyEqualFold input rest
  end.

(** The functions that take [input *string] receive [None] for [nil]. *)
Definition PlanIsConsumption `{CF : CaseFolding} (input : option string) : bool :=
  match input with
  | None => false
  | Some input => anyEqualFold input consumptionSkus
  end.

Definition PlanIsPremium `{CF : CaseFolding} (input : string) : bool :=
  if String.eqb input "" then false
  else anyEqualFold input premiumSkus.

Definition PlanIsFlexConsumption `{CF : CaseFolding} (input : option string) : bool :=
  match input with
  | None => false
  | Some input => anyEqualFold input flexConsumptionSkus
  end.

Definition PlanIsElastic `{CF : CaseFolding} (input : option string) : bool :=
  match input with
  | None => false
  | Some input => anyEqualFold input elasticSkus
  end.

Definition PlanIsIsolated `{CF : CaseFolding} (input : option string) : bool :=
  match input with
  | None => false
  | Some input => anyEqualFold input isolatedSkus
  end.

Definition PlanIsAppPlan `{CF : CaseFolding} (input : option string) : bool :=
  match input with
  | None => false
  | Some input => anyEqualFold input appServicePlanSkus
  end.

Definition PlanIsWorkflow `{CF : CaseFolding} (input : option string) : bool :=
  match input with
  | None => false
  | Some input => anyEqualFold input workflowSkus
  end.

Definition PlanTypeFromSku `{CF : CaseFolding} (input : string) : string :=
  if PlanIsPremium input then ServicePlanTypePremium
  else if PlanIsWorkflow (Some input) then ServicePlanTypeWorkflow
  else if PlanIsConsumption (Some input) then ServicePlanTypeConsumption
  else if PlanIsFlexConsumption (Some input) then ServicePlanTypeFlexConsumption
  else if PlanIsElastic (Some input) then ServicePlanTypeElastic
  else if PlanIsIsolated (Some input) then ServicePlanTypeIsolated
  else if PlanIsAppPlan (Some input) then ServicePlanTypeAppPlan
  else "unknown".

(** The [switch] compares the returned string with each listed constant. *)
Definition PlanSupportsZoneBalancing `{CF : CaseFolding} (input : string) : bool :=
  let t := PlanTypeFromSku input in
  if String.eqb t ServicePlanTypePremium || String.eqb t ServicePlanTypeElastic
     || String.eqb t ServicePlanTypeWorkflow || String.eqb t ServicePlanTypeConsumption
     || String.eqb t ServicePlanTypeFlexConsumption || String.eqb t ServicePlanTypeIsolated
  then true
  else false.

Definition PlanSupportsScaleOut (plan : string) : bool :=
  strings.HasPrefix plan "EP" || strings.HasPrefix plan "WS".

(** The classification as the specification words it: the category tables in
    priority order, "premium checked before workflow, before consumption,
    before flex-consumption, before elastic, before isolated, before
    app-plan". *)
Definition priorityTables : list (list string * string) :=
  [(premiumSkus, ServicePlanTypePremium);
   (workflowSkus, ServicePlanTypeWorkflow);
   (consumptionSkus, ServicePlanTypeConsumption);
   (flexConsumptionSkus, ServicePlanTypeFlexConsumption);
   (elasticSkus, ServicePlanTypeElastic);
   (isolatedSkus, ServicePlanTypeIsolated);
   (appServicePlanSkus, ServicePlanTypeAppPlan)].

(** "performs case-insensitive membership lookup against each category's fixed
    list, in a fixed priority order ...; returns the first matching category,
    or Unknown if no table matches". *)
Definition ClassifyPlan_spec `{CF : CaseFolding} (code : string) : string :=
  match find (fun tc => existsb (strings.EqualFold code) (fst tc)) priorityTables with
  | Some tc => snd tc
  | None => "unknown"
  end.

(** The codes of the seven tables [PlanTypeFromSku] consults. *)
Definition consultedSkus : list string := concat (map fst priorityTables).

End helpers.

(* ===================================================================== *)
(** * The plugin SDK's resource data and Go errors *)
(* ===================================================================== *)

(** A Go [error] built by [fmt.Errorf]: the format string and its operands
    are kept as they are passed ([AStringer] is an identifier struct, given
    by its fields in order, that [fmt] prints through its [String] method);
    [nil] is [None] of [option error]. *)
#[warnings="-register-all"] Inductive error :=
  | Errorf (format : string) (args : list fmtArg)
with fmtArg :=
  | AString (s : string)
  | AError (e : error)
  | AStringer (fields : list string).

Module pluginsdk.

(** The values a resource holds ([interface{}] in the SDK). *)
#[warnings="-register-all"] Inductive Value :=
  | VNull
  | VString (s : string)
  | VBool (b : bool)
  | VInt (n : Z)
  | VList (l : list Value)
  | VMap (m : list (string * Value)).

(** [pluginsdk.ResourceData] ([schema.ResourceData]): the stored ID and the
    field values by key. *)
Record ResourceData := {
  rd_id : string;
  rd_values : gmap string Value
}.

Definition Id (d : ResourceData) : string := rd_id d.

Definition SetId (v : string) (d : ResourceData) : ResourceData :=
  {| rd_id := v; rd_values := rd_values d |}.

(** [d.Get(key)]: the value of the field, [None] ([nil]) when it has none. *)
Definition Get (key : string) (d : ResourceData) : option Value :=
  rd_values d !! key.

(** [d.Set(key, value)] ([Set] is reserved in Rocq) stores the value and returns the SDK's error, which
    the SDK raises only for a value that does not fit the schema; the values
    written below have the type their schema declares. *)
Definition Set_ (key : string) (value : Value) (d : ResourceData)
  : ResourceData * option error :=
  ({| rd_id := rd_id d; rd_values := <[key := value]> (rd_values d) |}, None).

(** [v, ok := x.(string)]. *)
Definition assertString (x : option Value) : string * bool :=
  match x with
  | Some (VString s) => (s, true)
  | _ => ("", false)
  end.

(** [x.(string)] on a field whose schema type is [TypeString]: [d.Get]
    returns a string for such a field, the empty one when it is not set. *)
Definition asString (x : option Value) : string := fst (assertString x).

(** A [*string], [*bool] or [*int64] passed to [d.Set]. *)
Definition ofStringPtr (p : option string) : Value :=
  match p with Some s => VString s | None => VNull end.

Definition ofBoolPtr (p : option bool) : Value :=
  match p with Some b => VBool b | None => VNull end.

(** [x.(bool)] on a field whose schema type is [TypeBool]; the resource data
    holds the value the SDK resolved, the schema default when the
    configuration sets none. *)
Definition asBool (x : option Value) : bool :=
  match x with
  | Some (VBool b) => b
  | _ => false
  end.

(** [pluginsdk.ValueType], the types the schemas below use. *)
Inductive ValueType := TypeBool | TypeInt | TypeString.

(** The validation functions the schemas below name; they are declared in
    other packages and are kept by name. *)
Inductive Validator :=
  | ValidateTopicID
  | ValidateTopicName
  | ValidateResourceGroupName
  | ValidateNamespaceName.

(** [pluginsdk.Schema], the fields the schemas below set; a field a literal
    leaves out has Go's zero value. *)
Record Schema := {
  Type_ : ValueType;
  Required : bool;
  Optional : bool;
  Computed : bool;
  ValidateFunc : option Validator;
  AtLeastOneOf : list string;
  Deprecated : string
}.

(** [pluginsdk.Resource] of a data source: the read function, the read
    timeout in minutes and the schema. *)
Record Resource (ReadFunc : Type) := {
  Read : ReadFunc;
  Timeouts_Read : Z;
  Schema_ : gmap string Schema
}.
Arguments Read {ReadFunc} _.
Arguments Timeouts_Read {ReadFunc} _.
Arguments Schema_ {ReadFunc} _.

End pluginsdk.

(** An HTTP response as far as the adapters look at it: [None] for a [nil]
    response, else the status code. *)
Definition HttpResponse := option Z.

Definition StatusNotFound : Z := 404.

(* ===================================================================== *)
(** * [internal/services/servicebus/servicebus_subscription_data_source.go] *)
(* ===================================================================== *)

Module subscriptions.

(** [subscriptions.TopicId]. *)
Record TopicId := {
  SubscriptionId : string;
  ResourceGroupName : string;
  NamespaceName : string;
  TopicName : string
}.

(** [subscriptions.Subscriptions2Id], built by [NewSubscriptions2ID]. *)
Record Subscriptions2Id := NewSubscriptions2ID {
  id_SubscriptionId : string;
  id_ResourceGroupName : string;
  id_NamespaceName : string;
  id_TopicName : string;
  id_Subscriptions2Name : string
}.

Definition segments (id : Subscriptions2Id) : list string :=
  [id_SubscriptionId id; id_ResourceGroupName id; id_NamespaceName id;
   id_TopicName id; id_Subscriptions2Name id].

Definition topicType : resourceids.ResourceType :=
  {| resourceids.provider := "Microsoft.ServiceBus";
     resourceids.types := ["namespaces"; "topics"] |}.

Definition subscriptions2Type : resourceids.ResourceType :=
  {| resourceids.provider := "Microsoft.ServiceBus";
     resourceids.types := ["namespaces"; "topics"; "subscriptions"] |}.

(** Modelled from the spec: [subscriptions.ParseTopicID], which is missing
    from the sources: the codec's [Parse] at the shape of a topic path. *)
Definition ParseTopicID `{CF : CaseFolding} (input : string) : error + TopicId :=
  match resourceids.Parse topicType input with
  | inr id =>
      match resourceids.names id with
      | [ns; topic] =>
          inr {| SubscriptionId := resourceids.subscription id;
                 ResourceGroupName := resourceids.resourceGroup id;
                 NamespaceName := ns;
                 TopicName := topic |}
      | _ => inl (Errorf "parsing %q: malformed identifier" [AString input])
      end
  | inl _ => inl (Errorf "parsing %q: malformed identifier" [AString input])
  end.

(** Modelled from the spec: [id.ID()], which is missing from the sources: the
    codec's [Format] at the shape of a subscription path. *)
Definition ID (id : Subscriptions2Id) : string :=
  resourceids.Format subscriptions2Type
    {| resourceids.subscription := id_SubscriptionId id;
       resourceids.resourceGroup := id_ResourceGroupName id;
       resourceids.names :=
         [id_NamespaceName id; id_TopicName id; id_Subscriptions2Name id] |}.

(** [subscriptions.SubscriptionProperties], the fields the data source reads. *)
Record SBSubscriptionProperties := {
  AutoDeleteOnIdle : option string;
  DefaultMessageTimeToLive : option string;
  LockDuration : option string;
  DeadLetteringOnMessageExpiration : option bool;
  DeadLetteringOnFilterEvaluationExceptions : option bool;
  EnableBatchedOperations : option bool;
  RequiresSession : option bool;
  ForwardDeadLetteredMessagesTo : option string;
  ForwardTo : option string;
  MaxDeliveryCount : option Z
}.

Record SBSubscription := { Properties : option SBSubscriptionProperties }.

Record GetOperationResponse := {
  HttpResponse_ : HttpResponse;
  Model : option SBSubscription
}.

End subscriptions.

(** [response.WasNotFound]: [resp != nil && resp.StatusCode == http.StatusNotFound]. *)
Module response.

Definition WasNotFound (resp : HttpResponse) : bool :=
  match resp with
  | Some code => code =? StatusNotFound
  | None => false
  end.

End response.

Module servicebus.
Import pluginsdk subscriptions.

(** The provider's [clients.Client] (the [meta] argument) as far as the data source uses it: the Service
    Bus subscriptions client (its [Get] is the remote control plane's answer
    for an identifier) and the account's subscription. *)
Record Client := {
  SubscriptionsClient_Get : Subscriptions2Id -> GetOperationResponse * option error;
  Account_SubscriptionId : string
}.

(** What a call of the read function leaves behind: the resource data, the
    identifiers [client.Get] was called with, in order, and the returned
    error. *)
Record Outcome := {
  data : ResourceData;
  requests : list Subscriptions2Id;
  err : option error
}.

Section DataSource.

(** [features.FivePointOh()], the provider's 5.0 feature flag, and the SDK's
    topic-ID parser are declared outside this file. *)
Variable FivePointOh : bool.
Variable ParseTopicID : string -> error + TopicId.

(** Lines 140-157: the resource group, namespace and topic names the
    identifier is built from. *)
Definition topicNames (d : ResourceData) : error + (string * string * string) :=
  let rgName := "" in
  let nsName := "" in
  let topicName := "" in
  let '(v, ok) := assertString (Get "topic_id" d) in
  if ok && negb (String.eqb v "") then
    match ParseTopicID v with
    | inl err => inl (Errorf "parsing topic ID %q: %+v" [AString v; AError err])
    | inr topicId =>
        let rgName := ResourceGroupName topicId in
        let nsName := NamespaceName topicId in
        let topicName := TopicName topicId in
        if negb FivePointOh && String.eqb (SubscriptionId topicId) "" then
          let rgName := asString (Get "resource_group_name" d) in
          let nsName := asString (Get "namespace_name" d) in
          let topicName := asString (Get "topic_name" d) in
          inr (rgName, nsName, topicName)
        else inr (rgName, nsName, topicName)
    end
  else inr (rgName, nsName, topicName).

(** Lines 171-194: the fields set from the model. *)
Definition setProperties (d : ResourceData) (model : option SBSubscription) : ResourceData :=
  match model with
  | None => d
  | Some model =>
      match Properties model with
      | None => d
      | Some props =>
          let d := fst (Set_ "auto_delete_on_idle" (ofStringPtr (AutoDeleteOnIdle props)) d) in
          let d := fst (Set_ "default_message_ttl" (ofStringPtr (DefaultMessageTimeToLive props)) d) in
          let d := fst (Set_ "lock_duration" (ofStringPtr (LockDuration props)) d) in
          let d := fst (Set_ "dead_lettering_on_message_expiration"
                          (ofBoolPtr (DeadLetteringOnMessageExpiration props)) d) in
          let d := fst (Set_ "dead_lettering_on_filter_evaluation_error"
                          (ofBoolPtr (DeadLetteringOnFilterEvaluationExceptions props)) d) in
          let d := fst (Set_ "batched_operations_enabled" (ofBoolPtr (EnableBatchedOperations props)) d) in
          let d := fst (Set_ "requires_session" (ofBoolPtr (RequiresSession props)) d) in
          let d := fst (Set_ "forward_dead_lettered_messages_to"
                          (ofStringPtr (ForwardDeadLetteredMessagesTo props)) d) in
          let d := fst (Set_ "forward_to" (ofStringPtr (ForwardTo props)) d) in
          let maxDeliveryCount :=
            match MaxDeliveryCount props with
            | Some n => n
            | None => 0
            end in
          let d := fst (Set_ "max_delivery_count" (VInt maxDeliveryCount) d) in
          if negb FivePointOh then
            fst (Set_ "enable_batched_operations" (ofBoolPtr (EnableBatchedOperations props)) d)
          else d
      end
  end.

Definition dataSourceServiceBusSubscriptionRead (d : ResourceData) (meta : Client) : Outcome :=
  let subscriptionId := Account_SubscriptionId meta in
  match topicNames d with
  | inl e => {| data := d; requests := []; err := Some e |}
  | inr (rgName, nsName, topicName) =>
      let id := NewSubscriptions2ID subscriptionId rgName nsName topicName
                  (asString (Get "name" d)) in
      let '(existing, e) := SubscriptionsClient_Get meta id in
      match e with
      | Some e =>
          if response.WasNotFound (HttpResponse_ existing) then
            {| data := d; requests := [id];
               err := Some (Errorf "%s was not found" [AStringer (segments id)]) |}
          else
            {| data := d; requests := [id];
               err := Some (Errorf "retrieving %s: %+v" [AStringer (segments id); AError e]) |}
      | None =>
          let d := SetId (ID id) d in
          {| data := setProperties d (Model existing); requests := [id]; err := None |}
      end
  end.

End DataSource.

Section DataSourceSchema.

Variable FivePointOh : bool.
Variable ParseTopicID : string -> error + TopicId.

Definition required (t : ValueType) : Schema :=
  {| Type_ := t; Required := true; Optional := false; Computed := false;
     ValidateFunc := None; AtLeastOneOf := []; Deprecated := "" |}.

Definition computed (t : ValueType) : Schema :=
  {| Type_ := t; Required := false; Optional := false; Computed := true;
     ValidateFunc := None; AtLeastOneOf := []; Deprecated := "" |}.

Definition legacy (v : Validator) (deprecated : string) : Schema :=
  {| Type_ := TypeString; Required := false; Optional := true; Computed := false;
     ValidateFunc := Some v;
     AtLeastOneOf := ["topic_id"; "topic_name"; "resource_group_name"; "namespace_name"];
     Deprecated := deprecated |}.

(** Lines 21-132: the schema literal, and the entries the provider adds or
    replaces before version 5.0. *)
Definition dataSourceServiceBusSubscription
  : Resource (ResourceData -> Client -> Outcome) :=
  let schema : gmap string Schema :=
    <["name" := required TypeString]>
    (<["topic_id" :=
         {| Type_ := TypeString; Required := true; Optional := false; Computed := false;
            ValidateFunc := Some ValidateTopicID; AtLeastOneOf := []; Deprecated := "" |}]>
    (<["auto_delete_on_idle" := computed TypeString]>
    (<["default_message_ttl" := computed TypeString]>
    (<["lock_duration" := computed TypeString]>
    (<["dead_lettering_on_message_expiration" := computed TypeBool]>
    (<["dead_lettering_on_filter_evaluation_error" := computed TypeBool]>
    (<["batched_operations_enabled" := computed TypeBool]>
    (<["max_delivery_count" := computed TypeInt]>
    (<["requires_session" := computed TypeBool]>
    (<["forward_to" := computed TypeString]>
    (<["forward_dead_lettered_messages_to" := computed TypeString]> ∅))))))))))) in
  let schema :=
    if negb FivePointOh then
      <["enable_batched_operations" := computed TypeBool]>
      (<["namespace_name" :=
           legacy ValidateNamespaceName
             "`namespace_name` will be removed in favour of the property `topic_id` in version 5.0 of the AzureRM Provider."]>
      (<["resource_group_name" :=
           legacy ValidateResourceGroupName
             "`resource_group_name` will be removed in favour of the property `topic_id` in version 5.0 of the AzureRM Provider."]>
      (<["topic_name" :=
           legacy ValidateTopicName
             "`topic_name` will be removed in favour of the property `topic_id` in version 5.0 of the AzureRM Provider."]>
      (<["topic_id" := legacy ValidateTopicID ""]> schema))))
    else schema in
  {| Read := dataSourceServiceBusSubscriptionRead FivePointOh ParseTopicID;
     Timeouts_Read := 5;
     Schema_ := schema |}.

End DataSourceSchema.

(** Is [key] a field the schema declares as computed? *)
Definition isComputed (schema : gmap string Schema) (key : string) : bool :=
  match schema !! key with
  | Some s => Computed s
  | None => false
  end.

End servicebus.

(* ===================================================================== *)
(** * The Purview account resource *)
(* ===================================================================== *)

Module purview.
Import pluginsdk.

(** [purview.AccountSku], [purview.Identity], [purview.Account] and
    [purview.AccessKeys] of the Azure SDK, as far as the resource reads
    them. *)
Record AccountSku := {
  Name_ : string;
  Capacity : option Z
}.

Record Identity := {
  PrincipalID : option string;
  TenantID : option string;
  Type_ : string
}.

Record AccountPropertiesEndpoints := {
  Catalog : option string;
  Guardian : option string;
  Scan : option string
}.

Record AccountProperties := {
  PublicNetworkAccess : string;
  Endpoints : option AccountPropertiesEndpoints
}.

Definition Enabled : string := "Enabled".

Record Account := {
  Response : HttpResponse;
  Location : option string;
  Sku : option AccountSku;
  Identity_ : option Identity;
  AccountProperties_ : option AccountProperties;
  Tags : gmap string (option string)
}.

Record AccessKeys := {
  AtlasKafkaPrimaryEndpoint : option string;
  AtlasKafkaSecondaryEndpoint : option string
}.

(** [parse.AccountId]. *)
Record AccountId := {
  SubscriptionId : string;
  ResourceGroup : string;
  Name : string
}.

(** The Purview accounts client of the provider's client ([meta]): what the
    remote control plane answers to [Get] and [ListKeys] for a resource group
    and an account name. *)
Record Client := {
  AccountsClient_Get : string -> string -> Account * option error;
  AccountsClient_ListKeys : string -> string -> AccessKeys * option error
}.

(** [fmt.Sprintf] of [%d]. *)
Definition formatInt (n : Z) : string := NilZero.string_of_int (Z.to_int n).

Definition flattenPurviewSkuName (input : option AccountSku) : string :=
  match input with
  | None => ""
  | Some input =>
      match Capacity input with
      | None => ""
      | Some capacity => Name_ input +:+ "_" +:+ formatInt capacity
      end
  end.

Definition flattenPurviewAccountIdentity (identity : option Identity) : Value :=
  match identity with
  | None => VList []
  | Some identity =>
      if String.eqb (Type_ identity) "None" then VList []
      else
        let principalId :=
          match PrincipalID identity with Some p => p | None => "" end in
        let tenantId :=
          match TenantID identity with Some t => t | None => "" end in
        VList [VMap [("type", VString (Type_ identity));
                     ("principal_id", VString principalId);
                     ("tenant_id", VString tenantId)]]
  end.

Section Resource.

(** Helpers of the provider declared in other packages: [parse.AccountID],
    [utils.ResponseWasNotFound], [location.NormalizeNilable] and
    [tags.FlattenAndSet]. *)
Variable AccountID : string -> error + AccountId.
Variable ResponseWasNotFound : HttpResponse -> bool.
Variable NormalizeNilable : option string -> string.
Variable FlattenAndSet : ResourceData -> gmap string (option string) -> ResourceData * option error.

Definition resourcePurviewAccountRead (d : ResourceData) (meta : Client)
  : ResourceData * option error :=
  match AccountID (Id d) with
  | inl err => (d, Some err)
  | inr id =>
      let '(resp, err) := AccountsClient_Get meta (ResourceGroup id) (Name id) in
      match err with
      | Some err =>
          if ResponseWasNotFound (Response resp) then
            let d := SetId "" d in
            (d, None)
          else
            (d, Some (Errorf "retrieving %s: %+v"
                        [AStringer [SubscriptionId id; ResourceGroup id; Name id];
                         AError err]))
      | None =>
          let d := fst (Set_ "name" (VString (Name id)) d) in
          let d := fst (Set_ "resource_group_name" (VString (ResourceGroup id)) d) in
          let d := fst (Set_ "location" (VString (NormalizeNilable (Location resp))) d) in
          let d := fst (Set_ "sku_name" (VString (flattenPurviewSkuName (Sku resp))) d) in
          let '(d, err) := Set_ "identity" (flattenPurviewAccountIdentity (Identity_ resp)) d in
          match err with
          | Some err => (d, Some (Errorf "flattening `identity`: %+v" [AError err]))
          | None =>
              let d :=
                match AccountProperties_ resp with
                | Some props =>
                    let d := fst (Set_ "public_network_enabled"
                                    (VBool (String.eqb (PublicNetworkAccess props) Enabled)) d) in
                    match Endpoints props with
                    | Some endpoints =>
                        let d := fst (Set_ "catalog_endpoint" (ofStringPtr (Catalog endpoints)) d) in
                        let d := fst (Set_ "guardian_endpoint" (ofStringPtr (Guardian endpoints)) d) in
                        fst (Set_ "scan_endpoint" (ofStringPtr (Scan endpoints)) d)
                    | None => d
                    end
                | None => d
                end in
              let '(keys, err) := AccountsClient_ListKeys meta (ResourceGroup id) (Name id) in
              match err with
              | Some err =>
                  (d, Some (Errorf "retrieving Keys for %s: %+v"
                              [AStringer [SubscriptionId id; ResourceGroup id; Name id];
                               AError err]))
              | None =>
                  let d := fst (Set_ "atlas_kafka_endpoint_primary_connection_string"
                                  (ofStringPtr (AtlasKafkaPrimaryEndpoint keys)) d) in
                  let d := fst (Set_ "atlas_kafka_endpoint_secondary_connection_string"
                                  (ofStringPtr (AtlasKafkaSecondaryEndpoint keys)) d) in
                  FlattenAndSet d (Tags resp)
              end
          end
      end
  end.

End Resource.

(** [purview.SystemAssigned] and [purview.Disabled]. *)
Definition SystemAssigned : string := "SystemAssigned".
Definition Disabled : string := "Disabled".

(** The accounts client with the remote control plane made explicit: [R] is
    the state of the control plane, which the writing calls and the waits on
    their futures may change and the reading calls may not. *)
Record AccountsClient (R FutureC FutureD : Type) := {
  client_Get : R -> string -> string -> Account * option error;
  client_ListKeys : R -> string -> string -> AccessKeys * option error;
  client_CreateOrUpdate : R -> string -> string -> Account -> R * FutureC * option error;
  client_WaitCreateOrUpdate : R -> FutureC -> R * option error;
  client_Delete : R -> string -> string -> R * FutureD * option error;
  client_WaitDelete : R -> FutureD -> R * option error
}.
Arguments client_Get {R FutureC FutureD} _.
Arguments client_ListKeys {R FutureC FutureD} _.
Arguments client_CreateOrUpdate {R FutureC FutureD} _.
Arguments client_WaitCreateOrUpdate {R FutureC FutureD} _.
Arguments client_Delete {R FutureC FutureD} _.
Arguments client_WaitDelete {R FutureC FutureD} _.

(** What the read function sees of the client at a state of the control
    plane. *)
Definition clientAt {R FutureC FutureD : Type}
    (client : AccountsClient R FutureC FutureD) (r : R) : Client :=
  {| AccountsClient_Get := client_Get client r;
     AccountsClient_ListKeys := client_ListKeys client r |}.

Section CreateUpdateDelete.

Context {R FutureC FutureD : Type}.

(** Helpers of the provider declared in other packages: those of the read
    function, [id.ID()] of [parse.AccountId], [azure.NormalizeLocation],
    [tags.Expand], [tf.ImportAsExistsError] and [azure.SplitSku]. *)
Variable AccountID : string -> error + AccountId.
Variable ResponseWasNotFound : HttpResponse -> bool.
Variable NormalizeNilable : option string -> string.
Variable FlattenAndSet : ResourceData -> gmap string (option string) -> ResourceData * option error.
Variable ID : AccountId -> string.
Variable NormalizeLocation : string -> string.
Variable Expand : option Value -> gmap string (option string).
Variable ImportAsExistsError : string -> string -> error.
Variable SplitSku : string -> string * Z * option error.

Definition expandPurviewSkuName (d : ResourceData) : option AccountSku :=
  let sku := asString (Get "sku_name" d) in
  if (gostring.len sku =? 0)%nat then None
  else
    let '(name, capacity, err) := SplitSku sku in
    match err with
    | Some _ => None
    | None => Some {| Name_ := name; Capacity := Some capacity |}
    end.

(** Lines 144-158: the account sent to [CreateOrUpdate]. *)
Definition accountPayload (d : ResourceData) : Account :=
  let location := NormalizeLocation (asString (Get "location" d)) in
  let t := Get "tags" d in
  {| Response := None;
     Location := Some location;
     Sku := expandPurviewSkuName d;
     Identity_ := Some {| PrincipalID := None; TenantID := None; Type_ := SystemAssigned |};
     AccountProperties_ :=
       Some {| PublicNetworkAccess :=
                 if asBool (Get "public_network_enabled" d) then Enabled else Disabled;
               Endpoints := None |};
     Tags := Expand t |}.

(** [resourcePurviewAccountCreateUpdate]: [isNew] is [d.IsNewResource()],
    [subscriptionId] the subscription of the provider's client; the result
    is the control plane, the resource data and the error the call leaves. *)
Definition resourcePurviewAccountCreateUpdate
    (client : AccountsClient R FutureC FutureD) (subscriptionId : string)
    (isNew : bool) (d : ResourceData) (r : R) : R * ResourceData * option error :=
  let id := {| SubscriptionId := subscriptionId;
               ResourceGroup := asString (Get "resource_group_name" d);
               Name := asString (Get "name" d) |} in
  let presence : option error :=
    if isNew then
      let '(existing, err) := client_Get client r (ResourceGroup id) (Name id) in
      match err with
      | Some err =>
          if negb (ResponseWasNotFound (Response existing)) then
            Some (Errorf "checking for presence of existing %s: %+v"
                    [AStringer [SubscriptionId id; ResourceGroup id; Name id]; AError err])
          else None
      | None =>
          if negb (ResponseWasNotFound (Response existing)) then
            Some (ImportAsExistsError "azurerm_purview_account" (ID id))
          else None
      end
    else None in
  match presence with
  | Some err => (r, d, Some err)
  | None =>
      let account := accountPayload d in
      let '(r, future, err) :=
        client_CreateOrUpdate client r (ResourceGroup id) (Name id) account in
      match err with
      | Some err =>
          (r, d, Some (Errorf "creating/updating %s: %+v"
                         [AStringer [SubscriptionId id; ResourceGroup id; Name id];
                          AError err]))
      | None =>
          let '(r, err) := client_WaitCreateOrUpdate client r future in
          match err with
          | Some err =>
              (r, d, Some (Errorf "waiting for create/update of %s: %+v"
                             [AStringer [SubscriptionId id; ResourceGroup id; Name id];
                              AError err]))
          | None =>
              let d := SetId (ID id) d in
              let '(d, err) :=
                resourcePurviewAccountRead AccountID ResponseWasNotFound NormalizeNilable
                  FlattenAndSet d (clientAt client r) in
              (r, d, err)
          end
      end
  end.

(** [resourcePurviewAccountDelete]; it returns the control plane and the
    error, the resource data is only read. *)
Definition resourcePurviewAccountDelete
    (client : AccountsClient R FutureC FutureD) (d : ResourceData) (r : R)
  : R * option error :=
  match AccountID (Id d) with
  | inl err => (r, Some err)
  | inr id =>
      let '(r, future, err) := client_Delete client r (ResourceGroup id) (Name id) in
      match err with
      | Some err =>
          (r, Some (Errorf "deleting %s: %+v"
                      [AStringer [SubscriptionId id; ResourceGroup id; Name id];
                       AError err]))
      | None =>
          let '(r, err) := client_WaitDelete client r future in
          match err with
          | Some err =>
              (r, Some (Errorf "waiting for deletion of %s: %+v"
                          [AStringer [SubscriptionId id; ResourceGroup id; Name id];
                           AError err]))
          | None => (r, None)
          end
      end
  end.

End CreateUpdateDelete.

End purview.

(* ===================================================================== *)
(** * [service_plan.go], lines 221-291: the plan of an app *)
(* ===================================================================== *)

Module planinfo.

(** [commonids.AppServiceId], [webapps.SlotId] and
    [commonids.AppServicePlanId]. *)
Record AppServiceId := {
  app_SubscriptionId : string;
  app_ResourceGroupName : string;
  app_SiteName : string
}.

Record SlotId := {
  slot_SubscriptionId : string;
  slot_ResourceGroupName : string;
  slot_SiteName : string;
  slot_SlotName : string
}.

Record AppServicePlanId := {
  plan_SubscriptionId : string;
  plan_ResourceGroupName : string;
  plan_ServerFarmName : string
}.

(** The answers of the web apps and service plan clients, as far as the
    functions read them. *)
Record SiteProperties := { ServerFarmId : option string }.

Record Site := { Properties : option SiteProperties }.

Record SiteResponse := { site_Model : option Site }.

Record SkuDescription := { Name : option string }.

Record AppServicePlan := {
  Kind : option string;
  Sku : option SkuDescription
}.

Record PlanResponse := { plan_Model : option AppServicePlan }.

(** [metadata.Client.AppService]: the web apps client and the service plan
    client. *)
Record Clients := {
  WebAppsClient_Get : AppServiceId -> SiteResponse * option error;
  WebAppsClient_GetSlot : SlotId -> SiteResponse * option error;
  ServicePlanClient_Get : AppServicePlanId -> PlanResponse * option error
}.

(** A Go call either returns or panics (here: on a nil dereference). *)
Inductive Outcome (A : Type) :=
  | Returned (a : A)
  | Panicked.
Arguments Returned {A} _.
Arguments Panicked {A}.

(** What a caller can tell of an outcome without reading the error text. *)
Definition observed (o : Outcome (option string * option string * option error))
  : Outcome (option string * option string * bool) :=
  match o with
  | Returned (osType, planSku, err) =>
      Returned (osType, planSku, match err with Some _ => true | None => false end)
  | Panicked => Panicked
  end.

(** The operand [%+v] is given for an [err] that may be [nil]. *)
Definition errArg (err : option error) : fmtArg :=
  match err with
  | Some e => AError e
  | None => AString "<nil>"
  end.

(** [strings.Contains]: does [substr] occur in [s]? *)
Fixpoint Contains (s substr : string) : bool :=
  strings.HasPrefix s substr ||
  match s with
  | String _ s' => Contains s' substr
  | EmptyString => false
  end.

Section PlanInfo.

(** [commonids.ParseAppServicePlanIDInsensitively] and [strings.ToLower]
    (whose Unicode tables are outside the repository) are parameters. *)
Variable ParseAppServicePlanIDInsensitively : string -> error + AppServicePlanId.
Variable ToLower : string -> string.

(** [ServicePlanInfoForApp] returns the OS type and Service Plan SKU for a
    given App Service Resource: [(osType, planSku, err)]. *)
Definition ServicePlanInfoForApp (metadata : Clients) (id : AppServiceId)
  : Outcome (option string * option string * option error) :=
  let '(site, err) := WebAppsClient_Get metadata id in
  let idArg := AStringer [app_SubscriptionId id; app_ResourceGroupName id; app_SiteName id] in
  match err, site_Model site with
  | Some _, _ | None, None =>
      Returned (None, None, Some (Errorf "retrieving %s: %+v" [idArg; errArg err]))
  | None, Some model =>
      match Properties model with
      | None => Returned (None, None, Some (Errorf "retrieving %s: %+v" [idArg; errArg err]))
      | Some props =>
          match ServerFarmId props with
          | None =>
              Returned (None, None,
                        Some (Errorf "determining Service Plan ID for %s: %+v"
                                [idArg; errArg err]))
          | Some serverFarmId =>
              match ParseAppServicePlanIDInsensitively serverFarmId with
              | inl err => Returned (None, None, Some err)
              | inr servicePlanId =>
                  let '(sp, err) := ServicePlanClient_Get metadata servicePlanId in
                  match err with
                  | Some _ =>
                      Returned (None, None,
                                Some (Errorf "retrieving Service Plan for %s: %+v"
                                        [idArg; errArg err]))
                  | None =>
                      match plan_Model sp with
                      | None => Panicked
                      | Some plan =>
                          match Kind plan with
                          | None =>
                              Returned (None, None,
                                        Some (Errorf "retrieving Service Plan for %s: %+v"
                                                [idArg; errArg err]))
                          | Some kind =>
                              let osType :=
                                if Contains (ToLower kind) "linux" then Some "linux"
                                else Some "windows" in
                              let planSku :=
                                match Sku plan with
                                | Some sku => Name sku
                                | None => Some ""
                                end in
                              Returned (osType, planSku, None)
                          end
                      end
                  end
              end
          end
      end
  end.

(** [ServicePlanInfoForAppSlot], the same for a slot. *)
Definition ServicePlanInfoForAppSlot (metadata : Clients) (id : SlotId)
  : Outcome (option string * option string * option error) :=
  let '(site, err) := WebAppsClient_GetSlot metadata id in
  let idArg :=
    AStringer [slot_SubscriptionId id; slot_ResourceGroupName id; slot_SiteName id;
               slot_SlotName id] in
  match err, site_Model site with
  | Some _, _ | None, None =>
      Returned (None, None, Some (Errorf "retrieving %s: %+v" [idArg; errArg err]))
  | None, Some model =>
      match Properties model with
      | None => Returned (None, None, Some (Errorf "retrieving %s: %+v" [idArg; errArg err]))
      | Some props =>
          match ServerFarmId props with
          | None =>
              Returned (None, None,
                        Some (Errorf "determining Service Plan ID for %s: %+v"
                                [idArg; errArg err]))
          | Some serverFarmId =>
              match ParseAppServicePlanIDInsensitively serverFarmId with
              | inl err => Returned (None, None, Some err)
              | inr servicePlanId =>
                  let '(sp, err) := ServicePlanClient_Get metadata servicePlanId in
                  match err with
                  | Some _ =>
                      Returned (None, None,
                                Some (Errorf "retrieving Service Plan for %s: %+v"
                                        [idArg; errArg err]))
                  | None =>
                      match plan_Model sp with
                      | None => Panicked
                      | Some plan =>
                          match Kind plan with
                          | None =>
                              Returned (None, None,
                                        Some (Errorf "retrieving Service Plan for %s: %+v"
                                                [idArg; errArg err]))
                          | Some kind =>
                              let osType :=
                                if Contains (ToLower kind) "linux" then Some "linux"
                                else Some "windows" in
                              let planSku :=
                                match Sku plan with
                                | Some sku => Name sku
                                | None => Some ""
                                end in
                              Returned (osType, planSku, None)
                          end
                      end
                  end
              end
          end
      end
  end.

End PlanInfo.

End planinfo.

(* ===================================================================== *)
(** * Sample inputs *)
(* ===================================================================== *)

(** Sample configurations: one with the legacy fields only, one with both the
    topic ID (pointing to namespace [ns-a]) and legacy fields that disagree
    with it (namespace [ns-b]). *)
Definition legacyOnly : pluginsdk.ResourceData :=
  {| pluginsdk.rd_id := "";
     pluginsdk.rd_values :=
       <["name" := pluginsdk.VString "orders"]>
       (<["topic_id" := pluginsdk.VString ""]>
       (<["resource_group_name" := pluginsdk.VString "rg-b"]>
       (<["namespace_name" := pluginsdk.VString "ns-b"]>
       (<["topic_name" := pluginsdk.VString "t-b"]> ∅)))) |}.

Definition topicPathA : string :=
  "/subscriptions/sub-0/resourceGroups/rg-a/providers/Microsoft.ServiceBus/namespaces/ns-a/topics/t-a".

Definition bothSupplied : pluginsdk.ResourceData :=
  {| pluginsdk.rd_id := "";
     pluginsdk.rd_values :=
       <["topic_id" := pluginsdk.VString topicPathA]> (pluginsdk.rd_values legacyOnly) |}.

Definition emptyClient : servicebus.Client :=
  {| servicebus.SubscriptionsClient_Get := fun _ =>
       ({| subscriptions.HttpResponse_ := Some 200;
           subscriptions.Model := None |}, None);
     servicebus.Account_SubscriptionId := "sub-0" |}.

(** The code ["S1"] spelled with the long s (U+017F, bytes [C5 BF]). *)
Definition longS1 : string := String "197" (String "191" "1").

(** Sample Purview inputs: a stored account, the codec as the parser of its
    ID, and clients whose [Get] answers not-found, answers a server error,
    or succeeds while [ListKeys] fails. *)
Definition accountType : resourceids.ResourceType :=
  {| resourceids.provider := "Microsoft.Purview";
     resourceids.types := ["accounts"] |}.

Definition codecAccountID (input : string) : error + purview.AccountId :=
  match resourceids.Parse (CF := asciiFolding) accountType input with
  | inr id =>
      match resourceids.names id with
      | [name] =>
          inr {| purview.SubscriptionId := resourceids.subscription id;
                 purview.ResourceGroup := resourceids.resourceGroup id;
                 purview.Name := name |}
      | _ => inl (Errorf "parsing %q: malformed identifier" [AString input])
      end
  | inl _ => inl (Errorf "parsing %q: malformed identifier" [AString input])
  end.

Definition storedAccount : pluginsdk.ResourceData :=
  {| pluginsdk.rd_id :=
       "/subscriptions/sub-0/resourceGroups/rg-a/providers/Microsoft.Purview/accounts/acct";
     pluginsdk.rd_values := ∅ |}.

Definition sampleAccountId : purview.AccountId :=
  {| purview.SubscriptionId := "sub-0";
     purview.ResourceGroup := "rg-a";
     purview.Name := "acct" |}.

Definition answered (status : Z) : purview.Account :=
  {| purview.Response := Some status;
     purview.Location := None;
     purview.Sku := None;
     purview.Identity_ := None;
     purview.AccountProperties_ := None;
     purview.Tags := ∅ |}.

Definition noKeys : purview.AccessKeys :=
  {| purview.AtlasKafkaPrimaryEndpoint := None;
     purview.AtlasKafkaSecondaryEndpoint := None |}.

Definition failingGet (status : Z) : purview.Client :=
  {| purview.AccountsClient_Get := fun _ _ =>
       (answered status, Some (Errorf "request failed" []));
     purview.AccountsClient_ListKeys := fun _ _ => (noKeys, None) |}.

Definition failingListKeys : purview.Client :=
  {| purview.AccountsClient_Get := fun _ _ => (answered 200, None);
     purview.AccountsClient_ListKeys := fun _ _ =>
       (noKeys, Some (Errorf "request failed" [])) |}.

Definition samplePurviewRead :=
  purview.resourcePurviewAccountRead codecAccountID response.WasNotFound
    (fun location => match location with Some l => l | None => "" end)
    (fun d _ => (d, None)).

(** More sample inputs: a configuration with a topic ID and a name only, a
    Service Bus client that answers with properties, a control plane that
    holds an account and one that loses what it is given, data for a new
    Purview account with the helpers of the samples above, and the clients of
    an app on a Linux plan. *)
Definition topicOnly : pluginsdk.ResourceData :=
  {| pluginsdk.rd_id := "";
     pluginsdk.rd_values :=
       <["name" := pluginsdk.VString "orders"]>
       (<["topic_id" := pluginsdk.VString topicPathA]> ∅) |}.

Definition sampleProperties : subscriptions.SBSubscriptionProperties :=
  {| subscriptions.AutoDeleteOnIdle := Some "P10D";
     subscriptions.DefaultMessageTimeToLive := Some "P14D";
     subscriptions.LockDuration := Some "PT1M";
     subscriptions.DeadLetteringOnMessageExpiration := Some false;
     subscriptions.DeadLetteringOnFilterEvaluationExceptions := Some true;
     subscriptions.EnableBatchedOperations := Some true;
     subscriptions.RequiresSession := None;
     subscriptions.ForwardDeadLetteredMessagesTo := None;
     subscriptions.ForwardTo := None;
     subscriptions.MaxDeliveryCount := None |}.

Definition answeringClient : servicebus.Client :=
  {| servicebus.SubscriptionsClient_Get := fun _ =>
       ({| subscriptions.HttpResponse_ := Some 200;
           subscriptions.Model :=
             Some {| subscriptions.Properties := Some sampleProperties |} |}, None);
     servicebus.Account_SubscriptionId := "sub-0" |}.

Definition occupiedPlane : purview.AccountsClient unit unit unit :=
  {| purview.client_Get := fun _ _ _ => (answered 200, None);
     purview.client_ListKeys := fun _ _ _ => (noKeys, None);
     purview.client_CreateOrUpdate := fun _ _ _ _ => (tt, tt, None);
     purview.client_WaitCreateOrUpdate := fun _ _ => (tt, None);
     purview.client_Delete := fun _ _ _ => (tt, tt, None);
     purview.client_WaitDelete := fun _ _ => (tt, None) |}.

Definition lossyPlane : purview.AccountsClient unit unit unit :=
  {| purview.client_Get := fun _ _ _ =>
       (answered 404, Some (Errorf "request failed" []));
     purview.client_ListKeys := fun _ _ _ => (noKeys, None);
     purview.client_CreateOrUpdate := fun _ _ _ _ => (tt, tt, None);
     purview.client_WaitCreateOrUpdate := fun _ _ => (tt, None);
     purview.client_Delete := fun _ _ _ => (tt, tt, None);
     purview.client_WaitDelete := fun _ _ => (tt, None) |}.

Definition newAccount : pluginsdk.ResourceData :=
  {| pluginsdk.rd_id := "";
     pluginsdk.rd_values :=
       <["name" := pluginsdk.VString "acct"]>
       (<["resource_group_name" := pluginsdk.VString "rg-a"]>
       (<["location" := pluginsdk.VString "westeurope"]>
       (<["sku_name" := pluginsdk.VString "Standard_4"]>
       (<["public_network_enabled" := pluginsdk.VBool true]> ∅)))) |}.

Definition formatAccountID (id : purview.AccountId) : string :=
  resourceids.Format accountType
    {| resourceids.subscription := purview.SubscriptionId id;
       resourceids.resourceGroup := purview.ResourceGroup id;
       resourceids.names := [purview.Name id] |}.

Definition sampleNormalizeNilable (location : option string) : string :=
  match location with Some l => l | None => "" end.

Definition sampleFlattenAndSet (d : pluginsdk.ResourceData)
    (t : gmap string (option string)) : pluginsdk.ResourceData * option error :=
  (d, None).

Definition sampleImportAsExistsError (resourceName id : string) : error :=
  Errorf "A resource with the ID %q already exists" [AString id; AString resourceName].

Definition sampleSplitSku (sku : string) : string * Z * option error :=
  ("Standard", 4, None).

Definition sampleCreateUpdate
    (client : purview.AccountsClient unit unit unit) (isNew : bool)
    (d : pluginsdk.ResourceData) : unit * pluginsdk.ResourceData * option error :=
  purview.resourcePurviewAccountCreateUpdate codecAccountID response.WasNotFound
    sampleNormalizeNilable sampleFlattenAndSet formatAccountID (fun l => l)
    (fun _ => ∅) sampleImportAsExistsError sampleSplitSku client "sub-0" isNew d tt.

Definition samplePlanParse (input : string) : error + planinfo.AppServicePlanId :=
  inr {| planinfo.plan_SubscriptionId := "sub-0";
         planinfo.plan_ResourceGroupName := "rg-a";
         planinfo.plan_ServerFarmName := input |}.

Definition siteOnPlan : planinfo.SiteResponse :=
  {| planinfo.site_Model :=
       Some {| planinfo.Properties :=
                 Some {| planinfo.ServerFarmId := Some "plan-1" |} |} |}.

Definition linuxClients : planinfo.Clients :=
  {| planinfo.WebAppsClient_Get := fun _ => (siteOnPlan, None);
     planinfo.WebAppsClient_GetSlot := fun _ => (siteOnPlan, None);
     planinfo.ServicePlanClient_Get := fun _ =>
       ({| planinfo.plan_Model :=
             Some {| planinfo.Kind := Some "app,linux";
                     planinfo.Sku := Some {| planinfo.Name := Some "EP1" |} |} |}, None) |}.

Definition sampleApp : planinfo.AppServiceId :=
  {| planinfo.app_SubscriptionId := "sub-0";
     planinfo.app_ResourceGroupName := "rg-a";
     planinfo.app_SiteName := "site-1" |}.

Definition sampleSlot : planinfo.SlotId :=
  {| planinfo.slot_SubscriptionId := "sub-0";
     planinfo.slot_ResourceGroupName := "rg-a";
     planinfo.slot_SiteName := "site-1";
     planinfo.slot_SlotName := "staging" |}.

(* ===================================================================== *)
(** * Go strings: prefixes, splitting and joining *)
(* ===================================================================== *)

Section GoStringFacts.
Import gostring strings.

Lemma app_cons (c : ascii) (a b : string) : String c a +:+ b = String c (a +:+ b).
Proof. reflexivity. Qed.

Lemma app_nil (b : string) : "" +:+ b = b.
Proof. reflexivity. Qed.

Lemma take_app (p rest : string) : take (len p) (p +:+ rest) = p.
Proof.
  unfold take, len. induction p as [|c p IH].
  - rewrite app_nil. destruct rest; reflexivity.
  - rewrite app_cons. simpl. now rewrite IH.
Qed.

Lemma len_app (p rest : string) : len (p +:+ rest) = (len p + len rest)%nat.
Proof.
  unfold len. induction p as [|c p IH]; [reflexivity|].
  rewrite app_cons. simpl. now rewrite IH.
Qed.

Lemma take_skip (n : nat) (s : string) : take n s +:+ skip n s = s.
Proof.
  unfold take. revert s. induction n as [|n IH]; intros [|c s]; simpl; try reflexivity.
  now rewrite app_cons, IH.
Qed.

(** [HasPrefix s p] holds exactly when [s] is [p] followed by something. *)
Lemma HasPrefix_spec (s p : string) :
  HasPrefix s p = true <-> exists rest, s = p +:+ rest.
Proof.
  unfold HasPrefix. rewrite andb_true_iff, Nat.leb_le, String.eqb_eq. split.
  - intros [_ Ht]. exists (skip (len p) s).
    rewrite <- Ht at 1. symmetry. apply take_skip.
  - intros [rest ->]. rewrite len_app, take_app. split; [lia | reflexivity].
Qed.

Lemma Split_nonempty (sep : ascii) (s : string) : Split sep s <> [].
Proof.
  destruct s as [|c s]; simpl; [discriminate|].
  destruct (Ascii.eqb c sep); [discriminate|].
  destruct (Split sep s); discriminate.
Qed.

(** Joining the pieces of a split with the separator gives the string back. *)
Lemma Join_Split (sep : ascii) (s : string) :
  Join (String sep EmptyString) (Split sep s) = s.
Proof.
  induction s as [|c s IH]; simpl; [reflexivity|].
  destruct (Ascii.eqb_spec c sep) as [->|Hne].
  - pose proof (Split_nonempty sep s) as Hn.
    destruct (Split sep s) as [|h t]; [contradiction|].
    simpl in *. now rewrite IH.
  - pose proof (Split_nonempty sep s) as Hn.
    destruct (Split sep s) as [|h t]; [contradiction|].
    destruct t as [|h' t]; simpl in *; now rewrite <- IH.
Qed.

End GoStringFacts.

(* ===================================================================== *)
(** * UTF-8 decoding *)
(* ===================================================================== *)

Section Utf8Facts.
Import gostring utf8.

Lemma len_skip (n : nat) (s : string) : len (skip n s) = (len s - n)%nat.
Proof.
  revert s. induction n as [|n IH]; intros [|c s]; simpl; try reflexivity.
  apply IH.
Qed.

Lemma byte_range (c : ascii) : 0 <= byte c < 256.
Proof.
  unfold byte. pose proof (N_ascii_bounded c) as Hb. lia.
Qed.

(** An ASCII byte decodes to itself, with width one. *)
Lemma DecodeRuneInString_ascii (c : ascii) (s : string) :
  byte c < RuneSelf -> DecodeRuneInString (String c s) = (byte c, 1%nat).
Proof.
  intros Hc. unfold DecodeRuneInString, first.
  apply Z.ltb_lt in Hc. unfold RuneSelf in Hc. now rewrite Hc.
Qed.

(** Decoding consumes at least one byte of a non-empty string. *)
Lemma DecodeRuneInString_width (c : ascii) (s : string) :
  (1 <= snd (DecodeRuneInString (String c s)))%nat.
Proof.
  unfold DecodeRuneInString.
  repeat match goal with
  | |- context [if ?b then _ else _] => destruct b
  | |- context [match ?x with EmptyString => _ | String _ _ => _ end] => destruct x
  end; simpl; lia.
Qed.

(** Any number of iterations from [len(s)] on visits the same runes. *)
Lemma range_from_enough (n m : nat) (s : string) :
  (len s <= n)%nat -> (len s <= m)%nat -> range_from n s = range_from m s.
Proof.
  revert m s. induction n as [|n IH]; intros m s Hn Hm.
  - destruct s; [destruct m; reflexivity | simpl in Hn; lia].
  - destruct s as [|c s]; [destruct m; reflexivity|].
    destruct m as [|m]; [simpl in Hm; lia|].
    cbn [range_from].
    pose proof (DecodeRuneInString_width c s) as Hw.
    destruct (DecodeRuneInString (String c s)) as [r size]. simpl in Hw.
    f_equal. apply IH; rewrite len_skip; simpl in *; lia.
Qed.

(** One iteration of the [range] loop. *)
Lemma range_cons (c : ascii) (s : string) :
  range (String c s)
  = fst (DecodeRuneInString (String c s))
    :: range (skip (snd (DecodeRuneInString (String c s))) (String c s)).
Proof.
  unfold range at 1. cbn [len String.length range_from].
  pose proof (DecodeRuneInString_width c s) as Hw.
  destruct (DecodeRuneInString (String c s)) as [r size]. simpl in *.
  f_equal. apply range_from_enough; rewrite ?len_skip; simpl; unfold len; lia.
Qed.

Lemma range_ascii (c : ascii) (s : string) :
  byte c < RuneSelf -> range (String c s) = byte c :: range s.
Proof.
  intros Hc. rewrite range_cons, DecodeRuneInString_ascii by assumption. reflexivity.
Qed.

Lemma range_nil (s : string) : range s = [] <-> s = "".
Proof.
  split; [|intros ->; reflexivity].
  destruct s as [|c s]; [reflexivity|]. rewrite range_cons. discriminate.
Qed.

(** Two bytes whose bitwise or is below [RuneSelf] are both ASCII. *)
Lemma lor_ascii (a b : Z) :
  0 <= a -> 0 <= b -> Z.lor a b < RuneSelf -> a < RuneSelf /\ b < RuneSelf.
Proof.
  unfold RuneSelf. intros Ha Hb H.
  assert (Hbits : forall x, 0 <= x -> (x < 128 <-> forall i, 7 <= i -> Z.testbit x i = false)).
  { intros x Hx. split.
    - intros Hlt i Hi. destruct (Z.eq_dec x 0) as [->|Hne]; [apply Z.bits_0|].
      apply Z.bits_above_log2; [assumption|].
      assert (Z.log2 x < 7) by (apply Z.log2_lt_pow2; lia). lia.
    - intros Hbit. destruct (Z.eq_dec x 0) as [->|Hne]; [lia|].
      destruct (Z.lt_ge_cases x 128) as [|Hge]; [assumption|exfalso].
      assert (Hl : 7 <= Z.log2 x) by (change 7 with (Z.log2 128); apply Z.log2_le_mono; lia).
      specialize (Hbit (Z.log2 x) Hl). rewrite Z.bit_log2 in Hbit by lia. discriminate. }
  assert (Hlor : 0 <= Z.lor a b) by (apply Z.lor_nonneg; auto).
  rewrite (Hbits _ Hlor) in H. split; apply Hbits; try assumption; intros i Hi;
    specialize (H i Hi); rewrite Z.lor_spec in H; apply orb_false_iff in H; tauto.
Qed.

End Utf8Facts.

(* ===================================================================== *)
(** * Case folding: [EqualFold] compares runes up to their orbits *)
(* ===================================================================== *)

Section EqualFoldFacts.
Import gostring utf8 strings.
Context `{CF : CaseFolding}.

Lemma Forall2_head {A B : Type} (R : A -> B -> Prop) x l y k :
  Forall2 R (x :: l) (y :: k) <-> R x y /\ Forall2 R l k.
Proof.
  split.
  - intros HF. inversion HF. tauto.
  - intros [Hx Hl]. now constructor.
Qed.

Lemma foldsTo_refl (r : Z) : foldsTo r r.
Proof. unfold foldsTo, equalFoldRune. now rewrite Z.eqb_refl. Qed.

(** The rune loop compares the runes of both strings pairwise. *)
Lemma equalFoldRunes_spec (rs : list Z) (t : string) :
  equalFoldRunes rs t = true <-> Forall2 foldsTo rs (range t).
Proof.
  revert t. induction rs as [|sr rs IH]; intros t.
  - cbn [equalFoldRunes]. rewrite Nat.eqb_eq. split.
    + intros Hl. destruct t; [constructor | discriminate Hl].
    + intros HF. destruct t as [|t0 t1]; [reflexivity|].
      rewrite range_cons in HF. inversion HF.
  - destruct t as [|t0 t1].
    + cbn [equalFoldRunes]. split; [discriminate | intros HF; inversion HF].
    + cbn [equalFoldRunes].
      assert (Hstep :
        (if byte t0 <? RuneSelf then (byte t0, t1)
         else let '(r, size) := DecodeRuneInString (String t0 t1) in
              (r, skip size (String t0 t1)))
        = (fst (DecodeRuneInString (String t0 t1)),
           skip (snd (DecodeRuneInString (String t0 t1))) (String t0 t1))).
      { destruct (Z.ltb_spec (byte t0) RuneSelf) as [Hlt|_].
        - now rewrite DecodeRuneInString_ascii.
        - now destruct (DecodeRuneInString (String t0 t1)). }
      rewrite Hstep, range_cons.
      rewrite Forall2_head. unfold foldsTo at 1.
      destruct (equalFoldRune sr _).
      * rewrite IH. tauto.
      * split; [discriminate | intros [Hd _]; discriminate Hd].
Qed.

(** [EqualFold] compares the runes of both strings pairwise: the ASCII fast
    path decides as the rune loop would. *)
Lemma EqualFold_spec (s t : string) :
  EqualFold s t = true <-> Forall2 foldsTo (range s) (range t).
Proof.
  revert t. induction s as [|s0 s' IH]; intros t.
  - destruct t as [|t0 t']; cbn [EqualFold].
    + split; [constructor | reflexivity].
    + rewrite range_cons. split; [discriminate | intros HF; inversion HF].
  - destruct t as [|t0 t'].
    + cbn [EqualFold]. rewrite range_cons.
      split; [discriminate | intros HF; inversion HF].
    + cbn [EqualFold].
      destruct (Z.leb_spec RuneSelf (Z.lor (byte s0) (byte t0))) as [_|Hlor].
      * apply equalFoldRunes_spec.
      * pose proof (byte_range s0). pose proof (byte_range t0).
        apply lor_ascii in Hlor as [Hs Ht]; [|lia|lia].
        rewrite !range_ascii by assumption.
        assert (Hrune :
          (if byte t0 =? byte s0 then EqualFold s' t'
           else let '(sr, tr) :=
                  if byte t0 <? byte s0 then (byte t0, byte s0) else (byte s0, byte t0) in
                if (65 <=? sr) && (sr <=? 90) && (tr =? sr + 32) then EqualFold s' t'
                else false)
          = if equalFoldRune (byte s0) (byte t0) then EqualFold s' t' else false).
        { unfold equalFoldRune. destruct (byte t0 =? byte s0); [reflexivity|].
          destruct (Z.ltb_spec (byte t0) (byte s0)).
          - apply Z.ltb_lt in Hs. now rewrite Hs.
          - apply Z.ltb_lt in Ht. now rewrite Ht. }
        rewrite Hrune, Forall2_head. unfold foldsTo at 1.
        destruct (equalFoldRune (byte s0) (byte t0)).
        -- rewrite IH. tauto.
        -- split; [discriminate | intros [Hd _]; discriminate Hd].
Qed.

Lemma EqualFold_refl (s : string) : EqualFold s s = true.
Proof.
  apply EqualFold_spec. induction (range s); constructor; auto using foldsTo_refl.
Qed.

(** Only the empty string folds to the empty string. *)
Lemma EqualFold_empty (s : string) : EqualFold s "" = true -> s = "".
Proof.
  rewrite EqualFold_spec. intros HF. apply range_nil.
  change (range "") with (@nil Z) in HF. now inversion HF.
Qed.

End EqualFoldFacts.

Section CaseFoldingFacts.
Import gostring utf8 strings.
Context `{CF : CaseFolding}.
Hypothesis laws : CaseFoldingLaws CF.

Lemma sorted_head_lt (x : Z) (l : list Z) :
  StronglySorted Z.lt (x :: l) -> forall y, In y l -> x < y.
Proof.
  intros Hs y Hy. apply StronglySorted_inv in Hs as [_ Hall].
  rewrite List.Forall_forall in Hall. now apply Hall.
Qed.

Lemma sorted_filter (f : Z -> bool) (l : list Z) :
  StronglySorted Z.lt l -> StronglySorted Z.lt (List.filter f l).
Proof.
  induction 1 as [|x l Hs IH Hall]; simpl; [constructor|].
  destruct (f x); [|assumption].
  constructor; [assumption|].
  rewrite List.Forall_forall in *. intros y Hy. apply filter_In in Hy as [Hy _]. auto.
Qed.

Lemma filter_length_lt (f g : Z -> bool) (l : list Z) (w : Z) :
  (forall x, f x = true -> g x = true) ->
  In w l -> g w = true -> f w = false ->
  (length (List.filter f l) < length (List.filter g l))%nat.
Proof.
  intros Hfg. assert (Hle : forall k, (length (List.filter f k) <= length (List.filter g k))%nat).
  { induction k as [|x k IH]; simpl; [lia|].
    destruct (f x) eqn:Hf; [rewrite (Hfg _ Hf); simpl; lia|].
    destruct (g x); simpl; lia. }
  induction l as [|x l IH]; simpl; [contradiction|].
  intros [->|Hin] Hg Hf.
  - rewrite Hg, Hf. simpl. specialize (Hle l). lia.
  - specialize (IH Hin Hg Hf). destruct (f x) eqn:Hfx.
    + rewrite (Hfg _ Hfx). simpl. lia.
    + destruct (g x); simpl; lia.
Qed.

(** [SimpleFold] stays in the orbit. *)
Lemma SimpleFold_in (r : Z) : In (unicode.SimpleFold r) (caseOrbit r).
Proof.
  unfold unicode.SimpleFold.
  destruct (List.filter (fun x => r <? x) (caseOrbit r)) as [|x l] eqn:Hf.
  - pose proof (orbit_self _ laws r) as Hr.
    destruct (caseOrbit r); [contradiction | now left].
  - assert (Hx : In x (List.filter (fun x => r <? x) (caseOrbit r))) by (rewrite Hf; now left).
    now apply filter_In in Hx.
Qed.

(** When the orbit has a rune above [r], [SimpleFold r] is the least one. *)
Lemma SimpleFold_next (r t : Z) :
  In t (caseOrbit r) -> r < t ->
  r < unicode.SimpleFold r <= t.
Proof.
  intros Hin Hlt. unfold unicode.SimpleFold.
  assert (Ht : In t (List.filter (fun x => r <? x) (caseOrbit r))).
  { apply filter_In. split; [assumption | now apply Z.ltb_lt]. }
  pose proof (sorted_filter (fun x => r <? x) _ (orbit_sorted _ laws r)) as Hs.
  destruct (List.filter (fun x => r <? x) (caseOrbit r)) as [|x l] eqn:Hf; [contradiction|].
  assert (Hx : In x (List.filter (fun x => r <? x) (caseOrbit r))) by (rewrite Hf; now left).
  apply filter_In in Hx as [_ Hx]. apply Z.ltb_lt in Hx.
  destruct Ht as [->|Ht]; [lia|].
  pose proof (sorted_head_lt _ _ Hs t Ht). lia.
Qed.

Lemma foldWalk_in (n : nat) (sr tr r : Z) :
  In r (caseOrbit sr) -> In (foldWalk n sr tr r) (caseOrbit sr).
Proof.
  revert r. induction n as [|n IH]; intros r Hr; simpl; [assumption|].
  destruct (negb (r =? sr) && (r <? tr)); [|assumption].
  apply IH. rewrite <- (orbit_shared _ laws sr r Hr). apply SimpleFold_in.
Qed.

(** Climbing the orbit from [r] reaches [tr] when [tr] is in the orbit, above
    [sr], and the iterations left cover the runes from [r] on. *)
Lemma foldWalk_reaches (n : nat) (sr tr r : Z) :
  In tr (caseOrbit sr) -> In r (caseOrbit sr) -> sr < r <= tr ->
  (length (List.filter (fun x => (r <=? x)%Z) (caseOrbit sr)) <= n)%nat ->
  foldWalk n sr tr r = tr.
Proof.
  intros Htr. revert r. induction n as [|n IH]; intros r Hr Hrange Hn.
  - exfalso.
    assert (Hin : In r (List.filter (fun x => (r <=? x)%Z) (caseOrbit sr))).
    { apply filter_In. split; [assumption | apply Z.leb_refl]. }
    destruct (List.filter (fun x => (r <=? x)%Z) (caseOrbit sr)); [contradiction | simpl in Hn; lia].
  - simpl. destruct (Z.eqb_spec r sr) as [->|_]; [lia|].
    destruct (Z.ltb_spec r tr) as [Hlt|Hge]; simpl; [|lia].
    pose proof (orbit_shared _ laws sr r Hr) as Hshared.
    assert (Hnext : r < unicode.SimpleFold r <= tr).
    { apply SimpleFold_next; [now rewrite Hshared | assumption]. }
    apply IH.
    + rewrite <- Hshared. apply SimpleFold_in.
    + lia.
    + assert ((length (List.filter (fun x => (unicode.SimpleFold r <=? x)%Z) (caseOrbit sr))
               < length (List.filter (fun x => (r <=? x)%Z) (caseOrbit sr)))%nat); [|lia].
      apply filter_length_lt with (w := r).
      * intros x Hx. apply Z.leb_le in Hx. apply Z.leb_le. lia.
      * assumption.
      * apply Z.leb_refl.
      * apply Z.leb_gt. lia.
Qed.

(** For [sr < tr] the loop ends on [tr] exactly when [tr] is in the orbit. *)
Lemma foldWalk_spec (sr tr : Z) :
  sr < tr ->
  (foldWalk (length (caseOrbit sr)) sr tr (unicode.SimpleFold sr) =? tr) = true
  <-> In tr (caseOrbit sr).
Proof.
  intros Hlt. rewrite Z.eqb_eq. split.
  - intros <-. apply foldWalk_in, SimpleFold_in.
  - intros Htr. pose proof (SimpleFold_next sr tr Htr Hlt) as Hnext.
    apply foldWalk_reaches; [assumption | apply SimpleFold_in | assumption |].
    assert ((length (List.filter (fun x => (unicode.SimpleFold sr <=? x)%Z) (caseOrbit sr))
             < length (List.filter (fun x => (sr <=? x)%Z) (caseOrbit sr)))%nat).
    { apply filter_length_lt with (w := sr).
      - intros x Hx. apply Z.leb_le in Hx. apply Z.leb_le. lia.
      - apply (orbit_self _ laws).
      - apply Z.leb_refl.
      - apply Z.leb_gt. lia. }
    pose proof (filter_length_le (fun x => (sr <=? x)%Z) (caseOrbit sr)). lia.
Qed.

Lemma orbit_sym (a b : Z) : In b (caseOrbit a) -> In a (caseOrbit b).
Proof.
  intros H. rewrite (orbit_shared _ laws a b H). apply (orbit_self _ laws).
Qed.

Lemma orbit_trans (a b c : Z) :
  In b (caseOrbit a) -> In c (caseOrbit b) -> In c (caseOrbit a).
Proof. intros Hab Hbc. now rewrite (orbit_shared _ laws a b Hab) in Hbc. Qed.

(** The rune comparison of [EqualFold] decides membership in the orbit. *)
Lemma foldsTo_orbit (sr tr : Z) : foldsTo sr tr <-> In tr (caseOrbit sr).
Proof.
  unfold foldsTo, equalFoldRune.
  destruct (Z.eqb_spec tr sr) as [->|Hne].
  - split; [intros _; apply (orbit_self _ laws) | reflexivity].
  - destruct (Z.ltb_spec tr sr) as [Hlt|Hge].
    + assert (Hswap : In tr (caseOrbit sr) <-> In sr (caseOrbit tr))
        by (split; apply orbit_sym).
      rewrite Hswap. destruct (Z.ltb_spec sr RuneSelf) as [Hascii|Hbig].
      * rewrite (orbit_ascii _ laws tr sr Hlt Hascii).
        rewrite !andb_true_iff, !Z.leb_le, Z.eqb_eq. tauto.
      * now apply foldWalk_spec.
    + assert (Hlt : sr < tr) by lia.
      destruct (Z.ltb_spec tr RuneSelf) as [Hascii|Hbig].
      * rewrite (orbit_ascii _ laws sr tr Hlt Hascii).
        rewrite !andb_true_iff, !Z.leb_le, Z.eqb_eq. tauto.
      * now apply foldWalk_spec.
Qed.

Lemma foldsTo_sym (a b : Z) : foldsTo a b -> foldsTo b a.
Proof. rewrite !foldsTo_orbit. apply orbit_sym. Qed.

Lemma foldsTo_trans (a b c : Z) : foldsTo a b -> foldsTo b c -> foldsTo a c.
Proof. rewrite !foldsTo_orbit. apply orbit_trans. Qed.

Lemma Forall2_foldsTo_sym (l k : list Z) :
  Forall2 foldsTo l k -> Forall2 foldsTo k l.
Proof. induction 1; constructor; auto using foldsTo_sym. Qed.

Lemma Forall2_foldsTo_trans (l k m : list Z) :
  Forall2 foldsTo l k -> Forall2 foldsTo k m -> Forall2 foldsTo l m.
Proof.
  intros H. revert m. induction H as [|x y l k Hxy Hlk IH]; intros m Hm.
  - inversion Hm. constructor.
  - inversion Hm; subst. constructor; eauto using foldsTo_trans.
Qed.

(** [EqualFold] is symmetric and transitive. *)
Lemma EqualFold_sym (s t : string) : EqualFold s t = true -> EqualFold t s = true.
Proof. rewrite !EqualFold_spec. apply Forall2_foldsTo_sym. Qed.

Lemma EqualFold_trans (s t u : string) :
  EqualFold s t = true -> EqualFold t u = true -> EqualFold s u = true.
Proof. rewrite !EqualFold_spec. apply Forall2_foldsTo_trans. Qed.

(** Strings that fold to each other fold to the same strings. *)
Lemma EqualFold_variant (c c' v : string) :
  EqualFold c c' = true -> EqualFold c v = EqualFold c' v.
Proof.
  intros Hcc. destruct (EqualFold c v) eqn:Hcv, (EqualFold c' v) eqn:Hcv'; try reflexivity.
  - rewrite (EqualFold_trans c' c v) in Hcv'; auto using EqualFold_sym.
  - rewrite (EqualFold_trans c c' v) in Hcv; auto.
Qed.

End CaseFoldingFacts.

(** The table of the orbits that meet ASCII satisfies the laws. *)
Section AsciiFolding.

(** The five shapes an orbit of the table has. *)
Lemma asciiOrbit_cases (r : Z) :
  ((r = 0x4B \/ r = 0x6B \/ r = 0x212A) /\ asciiOrbit r = [0x4B; 0x6B; 0x212A]) \/
  ((r = 0x53 \/ r = 0x73 \/ r = 0x17F) /\ asciiOrbit r = [0x53; 0x73; 0x17F]) \/
  (65 <= r <= 90 /\ r <> 0x4B /\ r <> 0x53 /\ asciiOrbit r = [r; r + 32]) \/
  (97 <= r <= 122 /\ r <> 0x6B /\ r <> 0x73 /\ asciiOrbit r = [r - 32; r]) \/
  ((r < 65 \/ 90 < r < 97 \/ 122 < r) /\ r <> 0x212A /\ r <> 0x17F /\ asciiOrbit r = [r]).
Proof.
  unfold asciiOrbit.
  destruct (Z.eqb_spec r 0x4B); [left; simpl; tauto|].
  destruct (Z.eqb_spec r 0x6B); [left; simpl; tauto|].
  destruct (Z.eqb_spec r 0x212A); [left; simpl; tauto|].
  destruct (Z.eqb_spec r 0x53); [right; left; simpl; tauto|].
  destruct (Z.eqb_spec r 0x73); [right; left; simpl; tauto|].
  destruct (Z.eqb_spec r 0x17F); [right; left; simpl; tauto|].
  cbn [orb].
  destruct (Z.leb_spec 65 r); cbn [andb].
  - destruct (Z.leb_spec r 90).
    + right; right; left. repeat split; auto; lia.
    + destruct (Z.leb_spec 97 r); cbn [andb].
      * destruct (Z.leb_spec r 122).
        -- right; right; right; left. repeat split; auto; lia.
        -- right; right; right; right. repeat split; auto; lia.
      * right; right; right; right. repeat split; auto; lia.
  - destruct (Z.leb_spec 97 r); cbn [andb]; [lia|].
    right; right; right; right. repeat split; auto; lia.
Qed.

Local Ltac by_cases r :=
  destruct (asciiOrbit_cases r) as [[? ->]|[[? ->]|[(? & ? & ? & ->)|[(? & ? & ? & ->)|(? & ? & ? & ->)]]]].

Lemma asciiOrbit_sorted (r : Z) : StronglySorted Z.lt (asciiOrbit r).
Proof. by_cases r; repeat constructor; lia. Qed.

Lemma asciiOrbit_self (r : Z) : In r (asciiOrbit r).
Proof. by_cases r; simpl; lia. Qed.

Lemma asciiOrbit_shared (r r' : Z) :
  In r' (asciiOrbit r) -> asciiOrbit r' = asciiOrbit r.
Proof.
  by_cases r; simpl; intros Hin; by_cases r'; try lia;
    repeat (f_equal; try lia).
Qed.

Lemma asciiOrbit_ascii (a b : Z) :
  a < b -> b < utf8.RuneSelf ->
  (In b (asciiOrbit a) <-> 65 <= a <= 90 /\ b = a + 32).
Proof.
  unfold utf8.RuneSelf. intros Hab Hb. by_cases a; simpl; lia.
Qed.

Lemma asciiFolding_laws : CaseFoldingLaws asciiFolding.
Proof.
  constructor; simpl.
  - apply asciiOrbit_sorted.
  - apply asciiOrbit_self.
  - apply asciiOrbit_shared.
  - apply asciiOrbit_ascii.
Qed.

End AsciiFolding.

(* ===================================================================== *)
(** * The resource identifier codec *)
(* ===================================================================== *)

Section CodecFacts.
Import strings resourceids.
Context `{CF : CaseFolding}.

Lemma parseSegments_length (shape : list Segment) (segs vals : list string) :
  parseSegments shape segs = Some vals -> length segs = length shape.
Proof.
  revert segs vals. induction shape as [|[lit|] shape IH]; intros [|seg segs] vals H;
    simpl in H; try discriminate; [reflexivity| |].
  - destruct (strings.EqualFold seg lit); [|discriminate].
    simpl. f_equal. eauto.
  - destruct (String.eqb seg ""); [discriminate|].
    destruct (parseSegments shape segs) eqn:Hp; [|discriminate].
    simpl. f_equal. eauto.
Qed.

(** A keyword that does not match its literal makes the parse fail. *)
Lemma parseSegments_keyword (shape : list Segment) (segs : list string)
      (i : nat) (lit seg : string) :
  nth_error shape i = Some (Keyword lit) ->
  nth_error segs i = Some seg ->
  strings.EqualFold seg lit = false ->
  parseSegments shape segs = None.
Proof.
  revert segs i. induction shape as [|s shape IH]; intros segs i Hs Hseg Hne.
  - destruct i; discriminate.
  - destruct segs as [|seg0 segs]; [destruct i; discriminate|].
    destruct i as [|i]; simpl in Hs, Hseg.
    + injection Hs as ->. injection Hseg as ->. simpl. now rewrite Hne.
    + specialize (IH segs i Hs Hseg Hne). destruct s as [lit0|]; simpl.
      * destruct (strings.EqualFold seg0 lit0); [assumption | reflexivity].
      * destruct (String.eqb seg0 ""); [reflexivity | now rewrite IH].
Qed.

(** An empty value segment makes the parse fail. *)
Lemma parseSegments_empty_value (shape : list Segment) (segs : list string) (i : nat) :
  nth_error shape i = Some ValueSegment ->
  nth_error segs i = Some "" ->
  parseSegments shape segs = None.
Proof.
  revert segs i. induction shape as [|s shape IH]; intros segs i Hs Hseg.
  - destruct i; discriminate.
  - destruct segs as [|seg0 segs]; [destruct i; discriminate|].
    destruct i as [|i]; simpl in Hs, Hseg.
    + injection Hs as ->. injection Hseg as ->. reflexivity.
    + specialize (IH segs i Hs Hseg). destruct s as [lit0|]; simpl.
      * destruct (strings.EqualFold seg0 lit0); [assumption | reflexivity].
      * destruct (String.eqb seg0 ""); [reflexivity | now rewrite IH].
Qed.

(** The values a parse extracts are non-empty. *)
Lemma parseSegments_values (shape : list Segment) (segs vals : list string) :
  parseSegments shape segs = Some vals -> Forall (fun v => v <> "") vals.
Proof.
  revert segs vals. induction shape as [|[lit|] shape IH]; intros [|seg segs] vals H;
    simpl in H; try discriminate.
  - injection H as <-. constructor.
  - destruct (strings.EqualFold seg lit); [eauto | discriminate].
  - destruct (String.eqb_spec seg ""); [discriminate|].
    destruct (parseSegments shape segs) eqn:Hp; [|discriminate].
    injection H as <-. constructor; eauto.
Qed.

(** Canonical segments parse, and filling the shape with the parsed values
    gives the segments back. *)
Lemma canonicalSegments_parse (shape : list Segment) (segs : list string) :
  canonicalSegments shape segs = true ->
  exists vals, parseSegments shape segs = Some vals /\ fill shape vals = segs.
Proof.
  revert segs. induction shape as [|[lit|] shape IH]; intros [|seg segs] H;
    simpl in H; try discriminate.
  - exists []. split; reflexivity.
  - apply andb_true_iff in H as [Hk Hrest]. apply String.eqb_eq in Hk. subst seg.
    destruct (IH _ Hrest) as (vals & Hp & Hf). exists vals. simpl.
    rewrite EqualFold_refl. split; [assumption | now rewrite Hf].
  - apply andb_true_iff in H as [Hv Hrest]. apply negb_true_iff in Hv.
    destruct (IH _ Hrest) as (vals & Hp & Hf). exists (seg :: vals). simpl.
    rewrite Hv, Hp. split; [reflexivity | now rewrite Hf].
Qed.

(** The shape of a resource type starts with the subscription and the
    resource group, so a successful parse yields an identifier. *)
Lemma parseSegments_shapeOf (rt : ResourceType) (segs vals : list string) :
  parseSegments (shapeOf rt) segs = Some vals ->
  exists id, ofFields vals = Some id /\ fields id = vals.
Proof.
  unfold shapeOf. cbn [app]. intros H.
  destruct segs as [|k1 [|sub [|k2 [|rg [|k3 [|prov segs]]]]]];
    cbn [parseSegments] in H;
    repeat match type of H with
    | context [if ?b then _ else _] => destruct b; cbn [option_map] in H; try discriminate
    end; try discriminate.
  destruct (parseSegments (scopedShape (types rt)) segs) as [rest|];
    cbn [option_map] in H; [|discriminate].
  injection H as <-.
  exists {| subscription := sub; resourceGroup := rg; names := rest |}.
  split; reflexivity.
Qed.

Lemma Parse_canonical (rt : ResourceType) (path : string) :
  canonical rt path = true ->
  exists id, Parse rt path = inr id /\ Format rt id = path.
Proof.
  unfold canonical, Parse, Format. intros H.
  pose proof (Join_Split "/" path) as Hjoin.
  destruct (Split "/" path) as [|lead segs]; [discriminate|].
  apply andb_true_iff in H as [Hlead Hcan]. rewrite Hlead.
  apply String.eqb_eq in Hlead. subst lead.
  destruct (canonicalSegments_parse _ _ Hcan) as (vals & Hp & Hf).
  rewrite Hp. destruct (parseSegments_shapeOf _ _ _ Hp) as (id & Hid & Hfields).
  rewrite Hid. exists id. split; [reflexivity|].
  now rewrite Hfields, Hf.
Qed.

Lemma Parse_fails (rt : ResourceType) (path : string) :
  (forall lead segs, Split "/" path = lead :: segs ->
     parseSegments (shapeOf rt) segs = None) ->
  Parse rt path = inl MalformedIdentifierError.
Proof.
  unfold Parse. intros H. destruct (Split "/" path) as [|lead segs]; [reflexivity|].
  rewrite (H lead segs eq_refl). now destruct (String.eqb lead "").
Qed.

(** A topic ID that parses has a subscription. *)
Lemma ParseTopicID_subscription (input : string) (topicId : subscriptions.TopicId) :
  subscriptions.ParseTopicID input = inr topicId ->
  subscriptions.SubscriptionId topicId <> "".
Proof.
  unfold subscriptions.ParseTopicID, Parse.
  destruct (Split "/" input) as [|lead segs]; [discriminate|].
  destruct (String.eqb lead ""); [|discriminate].
  destruct (parseSegments _ segs) as [vals|] eqn:Hp; [|discriminate].
  pose proof (parseSegments_values _ _ _ Hp) as Hne.
  destruct vals as [|sub [|rg ns]]; simpl; try discriminate.
  destruct ns as [|ns [|topic [|]]]; try discriminate.
  intros H. injection H as <-. simpl.
  now apply Forall_inv in Hne.
Qed.

End CodecFacts.

Section CodecClaims.
Import strings resourceids.
Context `{CF : CaseFolding}.

(** C8. For every valid canonical resource path, formatting the identifier
    parsed from it gives the path back unchanged, value segments in their
    own case; a path with a wrong segment count, a wrong keyword or an empty
    value segment fails with the malformed-identifier error, which carries no
    partial result. *)
Theorem Format_Parse_roundtrip (rt : ResourceType) :
  (forall path, canonical rt path = true ->
     exists id, Parse rt path = inr id /\ Format rt id = path) /\
  (forall path, length (Split "/" path) <> S (length (shapeOf rt)) ->
     Parse rt path = inl MalformedIdentifierError) /\
  (forall path i lit seg,
     nth_error (shapeOf rt) i = Some (Keyword lit) ->
     nth_error (Split "/" path) (S i) = Some seg ->
     strings.EqualFold seg lit = false ->
     Parse rt path = inl MalformedIdentifierError) /\
  (forall path i,
     nth_error (shapeOf rt) i = Some ValueSegment ->
     nth_error (Split "/" path) (S i) = Some "" ->
     Parse rt path = inl MalformedIdentifierError).
Proof.
  repeat split.
  - apply Parse_canonical.
  - intros path Hlen. apply Parse_fails. intros lead segs Hsplit.
    destruct (parseSegments (shapeOf rt) segs) as [vals|] eqn:Hp; [|reflexivity].
    apply parseSegments_length in Hp. exfalso. apply Hlen.
    rewrite Hsplit. cbn [length]. now rewrite Hp.
  - intros path i lit seg Hshape Hseg Hne. apply Parse_fails. intros lead segs Hsplit.
    rewrite Hsplit in Hseg. simpl in Hseg. eapply parseSegments_keyword; eauto.
  - intros path i Hshape Hseg. apply Parse_fails. intros lead segs Hsplit.
    rewrite Hsplit in Hseg. simpl in Hseg. eapply parseSegments_empty_value; eauto.
Qed.

End CodecClaims.

(* ===================================================================== *)
(** * Service-plan classification *)
(* ===================================================================== *)

Section ServicePlanFacts.
Import helpers.
Context `{CF : CaseFolding}.

Lemma anyEqualFold_existsb (input : string) (skus : list string) :
  anyEqualFold input skus = existsb (strings.EqualFold input) skus.
Proof.
  induction skus as [|v rest IH]; simpl; [reflexivity|].
  rewrite IH. now destruct (strings.EqualFold input v).
Qed.

(** The empty-string guard of [PlanIsPremium] changes nothing: no entry of
    the table is empty. *)
Lemma PlanIsPremium_existsb (input : string) :
  PlanIsPremium input = existsb (strings.EqualFold input) premiumSkus.
Proof.
  unfold PlanIsPremium. destruct (String.eqb_spec input "") as [->|_].
  - reflexivity.
  - apply anyEqualFold_existsb.
Qed.

End ServicePlanFacts.

Section ServicePlanClaims.
Import helpers.
Context `{CF : CaseFolding}.

Local Ltac each_code H :=
  simpl in H;
  repeat (destruct H as [<- | H]; [vm_compute; try discriminate; auto |]);
  try contradiction.

(** [PlanTypeFromSku] decides as the ordered tables of the specification. *)
Lemma PlanTypeFromSku_tables (input : string) :
  PlanTypeFromSku input = ClassifyPlan_spec input.
Proof.
  unfold PlanTypeFromSku, ClassifyPlan_spec, priorityTables.
  unfold PlanIsWorkflow, PlanIsConsumption, PlanIsFlexConsumption,
    PlanIsElastic, PlanIsIsolated, PlanIsAppPlan.
  rewrite PlanIsPremium_existsb, !anyEqualFold_existsb.
  cbn [find fst snd].
  repeat match goal with
  | |- context [if existsb ?f ?l then _ else _] => destruct (existsb f l); [reflexivity|]
  end.
  reflexivity.
Qed.

(** C4. [PlanTypeFromSku] checks the category tables in the fixed priority
    order premium, workflow, consumption, flex-consumption, elastic,
    isolated, app-plan: for every input code it returns the category of the
    first table holding a case-insensitive match (the tables before it hold
    none), and ["unknown"] when no table matches. *)
Theorem PlanTypeFromSku_first_match (input : string) :
  map snd priorityTables
  = [ServicePlanTypePremium; ServicePlanTypeWorkflow; ServicePlanTypeConsumption;
     ServicePlanTypeFlexConsumption; ServicePlanTypeElastic; ServicePlanTypeIsolated;
     ServicePlanTypeAppPlan] /\
  PlanTypeFromSku input = ClassifyPlan_spec input /\
  (forall before skus category after,
     priorityTables = (before ++ (skus, category) :: after)%list ->
     (forall tb, In tb before -> existsb (strings.EqualFold input) (fst tb) = false) ->
     existsb (strings.EqualFold input) skus = true ->
     PlanTypeFromSku input = category) /\
  ((forall tc, In tc priorityTables ->
      existsb (strings.EqualFold input) (fst tc) = false) ->
   PlanTypeFromSku input = "unknown").
Proof.
  split; [reflexivity|]. split; [apply PlanTypeFromSku_tables|].
  rewrite PlanTypeFromSku_tables. unfold ClassifyPlan_spec. split.
  - intros before skus category after -> Hbefore Hhit.
    induction before as [|tb before IH]; cbn [app find fst snd].
    + now rewrite Hhit.
    + rewrite (Hbefore tb) by now left.
      apply IH. intros tb' Hin. apply Hbefore. now right.
  - intros Hnone. induction priorityTables as [|tc tables IH]; [reflexivity|].
    cbn [find]. rewrite (Hnone tc) by now left.
    apply IH. intros tc' Hin. apply Hnone. now right.
Qed.

(** C3 (amended). Every code of the seven tables [PlanTypeFromSku] consults
    gets a category other than ["unknown"]; the codes of the free and shared
    tables (["F1"], ["D1"], ["SHARED"]), which no category stands for, get
    ["unknown"]; and ["unknown"] is returned exactly when the code matches no
    entry of the seven consulted tables. *)
Theorem PlanTypeFromSku_unknown :
  (forall c, In c consultedSkus -> PlanTypeFromSku c <> "unknown") /\
  (forall c, In c (freeSkus ++ sharedSkus)%list -> PlanTypeFromSku c = "unknown") /\
  (forall c, PlanTypeFromSku c = "unknown" <->
             existsb (strings.EqualFold c) consultedSkus = false).
Proof.
  split; [|split].
  - intros c H. unfold consultedSkus in H. each_code H.
  - intros c H. each_code H.
  - intros c. rewrite PlanTypeFromSku_tables.
    unfold ClassifyPlan_spec, consultedSkus, priorityTables.
    cbn [find fst snd map concat].
    rewrite !existsb_app.
    repeat match goal with
    | |- context [if existsb ?f ?l then _ else _] =>
        destruct (existsb f l); [split; discriminate|]
    end.
    split; reflexivity.
Qed.

(** C6. For every code of the premium table, [PlanTypeFromSku] returns the
    premium category and [PlanSupportsZoneBalancing] returns true. *)
Theorem premium_codes_classified :
  premiumSkus = ["P1v2"; "P2v2"; "P3v2"; "P0v3"; "P1v3"; "P2v3"; "P3v3";
                 "P1mv3"; "P2mv3"; "P3mv3"; "P4mv3"; "P5mv3"] /\
  forall c, In c premiumSkus ->
    PlanTypeFromSku c = ServicePlanTypePremium /\ PlanSupportsZoneBalancing c = true.
Proof.
  split; [reflexivity|].
  intros c H. each_code H.
Qed.

(** C5. [PlanSupportsScaleOut] is true exactly when the raw code starts with
    ["EP"] or with ["WS"], whatever category [PlanTypeFromSku] assigns:
    ["EP2"] supports scale-out, so does the unclassified ["EP9"], while
    ["ep1"], classified elastic like ["EP1"], does not. *)
Theorem PlanSupportsScaleOut_prefix :
  (forall plan, PlanSupportsScaleOut plan = true <->
     (exists rest, plan = "EP" +:+ rest) \/ (exists rest, plan = "WS" +:+ rest)) /\
  PlanSupportsScaleOut "EP2" = true /\
  (PlanTypeFromSku "EP9" = "unknown" /\ PlanSupportsScaleOut "EP9" = true) /\
  (PlanTypeFromSku "EP1" = PlanTypeFromSku "ep1" /\
   PlanSupportsScaleOut "EP1" = true /\ PlanSupportsScaleOut "ep1" = false).
Proof.
  split; [|repeat split; reflexivity].
  intros plan. unfold PlanSupportsScaleOut.
  now rewrite orb_true_iff, !HasPrefix_spec.
Qed.

(** C9. [PlanSupportsScaleOut] is case-sensitive while the classification is
    not: the lower-case elastic codes are classified elastic and the
    lower-case workflow codes workflow, but none of them supports scale-out,
    whereas the codes as the tables spell them do. *)
Theorem PlanSupportsScaleOut_case_sensitive :
  Forall (fun c => PlanTypeFromSku c = ServicePlanTypeElastic /\
                   PlanSupportsScaleOut c = false) ["ep1"; "ep2"; "ep3"] /\
  Forall (fun c => PlanTypeFromSku c = ServicePlanTypeWorkflow /\
                   PlanSupportsScaleOut c = false) ["ws1"; "ws2"; "ws3"] /\
  Forall (fun c => PlanTypeFromSku c = ServicePlanTypeElastic /\
                   PlanSupportsScaleOut c = true) elasticSkus /\
  Forall (fun c => PlanTypeFromSku c = ServicePlanTypeWorkflow /\
                   PlanSupportsScaleOut c = true) workflowSkus.
Proof.
  repeat split; repeat constructor.
Qed.

End ServicePlanClaims.

Section CaseVariantClaims.
Import helpers.
Context `{CF : CaseFolding}.
Hypothesis laws : CaseFoldingLaws CF.

Lemma existsb_EqualFold_variant (c c' : string) (skus : list string) :
  strings.EqualFold c c' = true ->
  existsb (strings.EqualFold c) skus = existsb (strings.EqualFold c') skus.
Proof.
  intros Hcc. induction skus as [|v rest IH]; simpl; [reflexivity|].
  now rewrite IH, (EqualFold_variant laws c c' v Hcc).
Qed.

(** C7. The classification is case-insensitive: two codes that are equal
    under case folding pass the same per-category membership tests, so
    [PlanTypeFromSku] gives them the same category. *)
Theorem PlanTypeFromSku_case_insensitive (c c' : string) :
  strings.EqualFold c c' = true ->
  (forall skus, anyEqualFold c skus = anyEqualFold c' skus) /\
  PlanTypeFromSku c = PlanTypeFromSku c'.
Proof.
  intros Hcc. split.
  - intros skus. rewrite !anyEqualFold_existsb. now apply existsb_EqualFold_variant.
  - rewrite !PlanTypeFromSku_tables. unfold ClassifyPlan_spec.
    induction priorityTables as [|tc tables IH]; simpl; [reflexivity|].
    rewrite (existsb_EqualFold_variant c c' (fst tc) Hcc).
    destruct (existsb (strings.EqualFold c') (fst tc)); [reflexivity | exact IH].
Qed.

End CaseVariantClaims.

(* ===================================================================== *)
(** * The Service Bus subscription data source *)
(* ===================================================================== *)

Section DataSourceFacts.
Import pluginsdk subscriptions servicebus.

Variable FivePointOh : bool.
Variable ParseTopicID : string -> error + TopicId.

(** [client.Get] is called once, with the identifier built from the names
    lines 140-157 settle on, whatever it answers. *)
Lemma read_requests (d : ResourceData) (meta : Client) (rg ns topic : string) :
  topicNames FivePointOh ParseTopicID d = inr (rg, ns, topic) ->
  requests (dataSourceServiceBusSubscriptionRead FivePointOh ParseTopicID d meta)
  = [NewSubscriptions2ID (Account_SubscriptionId meta) rg ns topic (asString (Get "name" d))].
Proof.
  intros H. unfold dataSourceServiceBusSubscriptionRead. rewrite H.
  destruct (SubscriptionsClient_Get meta _) as [existing [e|]]; [|reflexivity].
  destruct (response.WasNotFound _); reflexivity.
Qed.

(** Without a topic ID the three names stay empty: the legacy fields are read
    only after a topic ID was parsed. *)
Lemma topicNames_without_topic_id (d : ResourceData) :
  asString (Get "topic_id" d) = "" ->
  topicNames FivePointOh ParseTopicID d = inr ("", "", "").
Proof.
  unfold topicNames, asString. destruct (assertString (Get "topic_id" d)) as [v ok].
  simpl. intros ->. now rewrite andb_false_r.
Qed.

(** With a topic ID that parses to an identifier with a subscription, the
    names are those of the parsed identifier. *)
Lemma topicNames_with_topic_id (d : ResourceData) (v : string) (topicId : TopicId) :
  assertString (Get "topic_id" d) = (v, true) ->
  v <> "" ->
  ParseTopicID v = inr topicId ->
  SubscriptionId topicId <> "" ->
  topicNames FivePointOh ParseTopicID d
  = inr (ResourceGroupName topicId, NamespaceName topicId, TopicName topicId).
Proof.
  intros Hget Hv Hparse Hsub. unfold topicNames. rewrite Hget.
  apply String.eqb_neq in Hv, Hsub. rewrite Hv, Hparse, Hsub. simpl.
  now rewrite andb_false_r.
Qed.

End DataSourceFacts.

Section DataSourceClaims.
Import pluginsdk subscriptions servicebus.

(** C1 (what the code does instead). Without a topic ID the identifier
    [client.Get] is called with has an empty resource group, namespace and
    topic name, whatever the legacy fields hold. *)
Theorem legacy_fields_dropped_without_topic_id
    (FivePointOh : bool) (parse : string -> error + TopicId)
    (d : ResourceData) (meta : Client) :
  asString (Get "topic_id" d) = "" ->
  requests (dataSourceServiceBusSubscriptionRead FivePointOh parse d meta)
  = [NewSubscriptions2ID (Account_SubscriptionId meta) "" "" ""
       (asString (Get "name" d))].
Proof.
  intros H. apply read_requests. now apply topicNames_without_topic_id.
Qed.

(** C2. With a topic ID that parses, the identifier [client.Get] is called
    with takes its resource group, namespace and topic from the topic ID;
    what the legacy fields hold does not enter it. *)
Theorem topic_id_wins_over_legacy_fields `{CF : CaseFolding}
    (FivePointOh : bool) (d : ResourceData) (meta : Client)
    (v : string) (topicId : TopicId) :
  assertString (Get "topic_id" d) = (v, true) ->
  v <> "" ->
  ParseTopicID v = inr topicId ->
  requests (dataSourceServiceBusSubscriptionRead FivePointOh ParseTopicID d meta)
  = [NewSubscriptions2ID (Account_SubscriptionId meta)
       (ResourceGroupName topicId) (NamespaceName topicId) (TopicName topicId)
       (asString (Get "name" d))].
Proof.
  intros Hget Hv Hparse. apply read_requests.
  eapply topicNames_with_topic_id; eauto using ParseTopicID_subscription.
Qed.

End DataSourceClaims.

(* ===================================================================== *)
(** * The Purview account resource: reading *)
(* ===================================================================== *)

Section PurviewClaims.
Import pluginsdk purview.

Variable AccountID : string -> error + AccountId.
Variable ResponseWasNotFound : HttpResponse -> bool.
Variable NormalizeNilable : option string -> string.
Variable FlattenAndSet :
  ResourceData -> gmap string (option string) -> ResourceData * option error.

(** C10. When [client.Get] fails with a not-found response, the read clears
    the stored ID and returns no error; when it fails otherwise, the read
    returns an error and leaves the resource data, the stored ID with it, as
    it was. A failure of [ListKeys] also returns an error with the stored ID
    unchanged. *)
Theorem read_not_found_clears_id (d : ResourceData) (meta : Client) (id : AccountId) :
  AccountID (Id d) = inr id ->
  let result :=
    resourcePurviewAccountRead AccountID ResponseWasNotFound NormalizeNilable
      FlattenAndSet d meta in
  (forall resp e,
     AccountsClient_Get meta (ResourceGroup id) (Name id) = (resp, Some e) ->
     if ResponseWasNotFound (Response resp)
     then result = (SetId "" d, None) /\ Id (fst result) = ""
     else exists e', result = (d, Some e')) /\
  (forall resp keys e,
     AccountsClient_Get meta (ResourceGroup id) (Name id) = (resp, None) ->
     AccountsClient_ListKeys meta (ResourceGroup id) (Name id) = (keys, Some e) ->
     exists d' e', result = (d', Some e') /\ Id d' = Id d).
Proof.
  intros Hid result. subst result. unfold resourcePurviewAccountRead. rewrite Hid. split.
  - intros resp e Hget. rewrite Hget.
    destruct (ResponseWasNotFound (Response resp)).
    + split; reflexivity.
    + eexists. reflexivity.
  - intros resp keys e Hget Hkeys. rewrite Hget. cbn [Set_ fst]. rewrite Hkeys.
    eexists. eexists. split; [reflexivity|].
    destruct (AccountProperties_ resp) as [props|]; [|reflexivity].
    destruct (Endpoints props); reflexivity.
Qed.

End PurviewClaims.

(* ===================================================================== *)
(** * The claims on concrete inputs *)
(* ===================================================================== *)

Section Instances.
Import strings resourceids helpers pluginsdk subscriptions.
#[local] Existing Instance asciiFolding.

(** The sample codes of the specification: ["Y1"] is a consumption plan with
    zone balancing and without scale-out, ["XYZ123"] is unknown and has
    neither. *)
Example classify_Y1 :
  PlanTypeFromSku "Y1" = ServicePlanTypeConsumption /\
  PlanSupportsZoneBalancing "Y1" = true /\ PlanSupportsScaleOut "Y1" = false.
Proof. repeat split. Qed.

Example classify_XYZ123 :
  PlanTypeFromSku "XYZ123" = "unknown" /\
  PlanSupportsZoneBalancing "XYZ123" = false /\ PlanSupportsScaleOut "XYZ123" = false.
Proof. repeat split. Qed.

(** The long s folds to [S], so the rune loop of [EqualFold] is exercised. *)
Example classify_longS1 : PlanTypeFromSku longS1 = ServicePlanTypeAppPlan.
Proof. reflexivity. Qed.

(** A configuration with the legacy fields only: they hold [rg-b], [ns-b] and
    [t-b], the identifier has none of them. *)
Lemma legacy_fields_dropped_at_legacyOnly :
  asString (Get "topic_id" legacyOnly) = "" /\
  asString (Get "resource_group_name" legacyOnly) = "rg-b" /\
  asString (Get "namespace_name" legacyOnly) = "ns-b" /\
  asString (Get "topic_name" legacyOnly) = "t-b" /\
  servicebus.requests
    (servicebus.dataSourceServiceBusSubscriptionRead false ParseTopicID legacyOnly emptyClient)
  = [NewSubscriptions2ID "sub-0" "" "" "" "orders"].
Proof.
  refine (conj _ (conj _ (conj _ (conj _
    (legacy_fields_dropped_without_topic_id false ParseTopicID legacyOnly emptyClient _)))));
    vm_compute; reflexivity.
Defined.

(** The topic ID names [ns-a], the legacy field [ns-b]: the identifier has
    [ns-a]. *)
Lemma topic_id_wins_at_bothSupplied :
  asString (Get "namespace_name" bothSupplied) = "ns-b" /\
  servicebus.requests
    (servicebus.dataSourceServiceBusSubscriptionRead false ParseTopicID bothSupplied emptyClient)
  = [NewSubscriptions2ID "sub-0" "rg-a" "ns-a" "t-a" "orders"].
Proof.
  split; [vm_compute; reflexivity|].
  refine (topic_id_wins_over_legacy_fields false bothSupplied emptyClient topicPathA
            {| SubscriptionId := "sub-0"; ResourceGroupName := "rg-a";
               NamespaceName := "ns-a"; TopicName := "t-a" |} _ _ _).
  - vm_compute; reflexivity.
  - discriminate.
  - vm_compute; reflexivity.
Defined.

(** C3 as stated fails: ["F1"] is in the free table, ["D1"] and ["SHARED"]
    in the shared table, all three among the known SKUs, and each is
    classified ["unknown"], whatever the case-folding table. *)
Lemma free_and_shared_codes_unknown :
  In "F1" freeSkus /\ In "D1" sharedSkus /\ In "SHARED" sharedSkus /\
  In "F1" AllKnownServicePlanSkus /\
  (forall CF : CaseFolding,
     @PlanTypeFromSku CF "F1" = "unknown" /\
     @PlanTypeFromSku CF "D1" = "unknown" /\
     @PlanTypeFromSku CF "SHARED" = "unknown").
Proof.
  repeat split; try reflexivity; simpl; tauto.
Qed.

(** ["ws2"] misses the premium table and hits the workflow table; ["XYZ123"]
    hits none. *)
Lemma PlanTypeFromSku_first_match_at_samples :
  PlanTypeFromSku "ws2" = ServicePlanTypeWorkflow /\
  PlanTypeFromSku "XYZ123" = "unknown".
Proof.
  split.
  - refine (proj1 (proj2 (proj2 (PlanTypeFromSku_first_match (CF := asciiFolding) "ws2")))
              [(premiumSkus, ServicePlanTypePremium)] workflowSkus ServicePlanTypeWorkflow
              _ eq_refl _ _).
    + intros tb [<-|[]]. reflexivity.
    + reflexivity.
  - apply (proj2 (proj2 (proj2 (PlanTypeFromSku_first_match (CF := asciiFolding) "XYZ123")))).
    intros tc Hin. simpl in Hin.
    repeat (destruct Hin as [<-|Hin]; [reflexivity|]). contradiction.
Defined.

Lemma PlanTypeFromSku_unknown_at_samples :
  PlanTypeFromSku "EP1" <> "unknown" /\
  PlanTypeFromSku "D1" = "unknown" /\
  (PlanTypeFromSku "XYZ123" = "unknown" <->
   existsb (strings.EqualFold "XYZ123") consultedSkus = false).
Proof.
  destruct (PlanTypeFromSku_unknown (CF := asciiFolding)) as (Hin & Hout & Hiff).
  split; [|split].
  - apply Hin. vm_compute. tauto.
  - apply Hout. vm_compute. tauto.
  - apply Hiff.
Defined.

Lemma premium_codes_classified_at_P1v2 :
  In "P1v2" premiumSkus /\
  PlanTypeFromSku "P1v2" = ServicePlanTypePremium /\
  PlanSupportsZoneBalancing "P1v2" = true.
Proof.
  split; [simpl; tauto|].
  apply (proj2 (premium_codes_classified (CF := asciiFolding))). simpl. tauto.
Defined.

(** Case variants: ["p1V2"] of ["P1v2"], and ["S1"] spelled with the long s. *)
Lemma PlanTypeFromSku_case_insensitive_at_samples :
  strings.EqualFold "p1V2" "P1v2" = true /\
  PlanTypeFromSku "p1V2" = PlanTypeFromSku "P1v2" /\
  strings.EqualFold longS1 "S1" = true /\
  PlanTypeFromSku longS1 = PlanTypeFromSku "S1".
Proof.
  split; [reflexivity|]. split.
  - apply (PlanTypeFromSku_case_insensitive asciiFolding_laws "p1V2" "P1v2"). reflexivity.
  - split; [reflexivity|].
    apply (PlanTypeFromSku_case_insensitive asciiFolding_laws longS1 "S1"). reflexivity.
Defined.

(** The topic path round-trips; a short path, a misspelled keyword and an
    empty subscription fail. *)
Lemma Format_Parse_roundtrip_at_topic_paths :
  canonical topicType topicPathA = true /\
  (exists id, Parse topicType topicPathA = inr id /\ Format topicType id = topicPathA) /\
  Parse topicType "/subscriptions/sub-0" = inl MalformedIdentifierError /\
  Parse topicType
    "/subs/sub-0/resourceGroups/rg-a/providers/Microsoft.ServiceBus/namespaces/ns-a/topics/t-a"
  = inl MalformedIdentifierError /\
  Parse topicType
    "/subscriptions//resourceGroups/rg-a/providers/Microsoft.ServiceBus/namespaces/ns-a/topics/t-a"
  = inl MalformedIdentifierError.
Proof.
  destruct (Format_Parse_roundtrip (CF := asciiFolding) topicType)
    as (Hround & Hcount & Hkeyword & Hvalue).
  split; [reflexivity|]. split; [|split; [|split]].
  - apply Hround. reflexivity.
  - apply Hcount. vm_compute. lia.
  - apply (Hkeyword _ 0%nat "subscriptions" "subs"); reflexivity.
  - apply (Hvalue _ 1%nat); reflexivity.
Defined.

(** A not-found answer clears the stored ID without an error; a server error
    is returned and leaves the resource data alone; so does a failure of
    [ListKeys], as far as the ID goes. *)
Lemma read_not_found_clears_id_at_storedAccount :
  samplePurviewRead storedAccount (failingGet 404) = (SetId "" storedAccount, None) /\
  (exists e, samplePurviewRead storedAccount (failingGet 500) = (storedAccount, Some e)) /\
  (exists d e, samplePurviewRead storedAccount failingListKeys = (d, Some e) /\
               Id d = Id storedAccount).
Proof.
  assert (Hid : codecAccountID (Id storedAccount) = inr sampleAccountId)
    by (vm_compute; reflexivity).
  split; [|split].
  - exact (proj1 (proj1 (read_not_found_clears_id codecAccountID response.WasNotFound _ _
             storedAccount (failingGet 404) sampleAccountId Hid) _ _ eq_refl)).
  - exact (proj1 (read_not_found_clears_id codecAccountID response.WasNotFound _ _
             storedAccount (failingGet 500) sampleAccountId Hid) _ _ eq_refl).
  - exact (proj2 (read_not_found_clears_id codecAccountID response.WasNotFound _ _
             storedAccount failingListKeys sampleAccountId Hid) _ _ _ eq_refl eq_refl).
Defined.

End Instances.

(* ===================================================================== *)
(** * More on the service-plan classification *)
(* ===================================================================== *)

Section TablesApart.
Import helpers.
Context `{CF : CaseFolding}.

(** No code of one consulted table folds to a code of another: a check over
    all pairs of entries, which are ASCII. *)
Lemma tables_apart (t1 t2 : list string * string) (v1 v2 : string) :
  In t1 priorityTables -> In t2 priorityTables -> t1 <> t2 ->
  In v1 (fst t1) -> In v2 (fst t2) ->
  strings.EqualFold v1 v2 = false.
Proof.
  intros H1 H2 Hne Hv1 Hv2.
  assert (Hcheck :
    forallb (fun a =>
      forallb (fun b =>
        bool_decide (a = b) ||
        forallb (fun x => forallb (fun y => negb (strings.EqualFold x y)) (fst b)) (fst a))
      priorityTables) priorityTables = true) by (vm_compute; reflexivity).
  rewrite forallb_forall in Hcheck. specialize (Hcheck t1 H1).
  rewrite forallb_forall in Hcheck. specialize (Hcheck t2 H2).
  apply orb_true_iff in Hcheck as [Heq|Hall].
  - apply bool_decide_eq_true in Heq. contradiction.
  - rewrite forallb_forall in Hall. specialize (Hall v1 Hv1).
    rewrite forallb_forall in Hall. specialize (Hall v2 Hv2).
    now apply negb_true_iff in Hall.
Qed.

Lemma categories_distinct (t1 t2 : list string * string) :
  In t1 priorityTables -> In t2 priorityTables -> snd t1 = snd t2 -> t1 = t2.
Proof.
  intros H1 H2. simpl in H1, H2.
  repeat (destruct H1 as [<-|H1]); try contradiction;
    repeat (destruct H2 as [<-|H2]); try contradiction;
    simpl; intros Heq; try reflexivity; discriminate Heq.
Qed.

End TablesApart.

Section ClassificationProperties.
Import helpers.
Context `{CF : CaseFolding}.

(** X3. [PlanSupportsZoneBalancing] holds exactly for the codes that match an
    entry of the premium, workflow, consumption, flex-consumption, elastic or
    isolated table; app-plan codes and unknown codes do not support it. *)
Theorem PlanSupportsZoneBalancing_tables (input : string) :
  PlanSupportsZoneBalancing input
  = existsb (strings.EqualFold input)
      (premiumSkus ++ workflowSkus ++ consumptionSkus ++ flexConsumptionSkus
       ++ elasticSkus ++ isolatedSkus)%list.
Proof.
  unfold PlanSupportsZoneBalancing. rewrite PlanTypeFromSku_tables.
  unfold ClassifyPlan_spec, priorityTables. cbn [find fst snd].
  rewrite !existsb_app.
  repeat match goal with
  | |- context [if existsb ?f ?l then _ else _] =>
      destruct (existsb f l); [cbn; now rewrite ?orb_true_r|]
  end.
  reflexivity.
Qed.

(** The classification of a code that starts with the bytes [E] and [P], or
    [W] and [S]: only the elastic, respectively the workflow, table can hold
    a match. *)
Lemma PlanTypeFromSku_EP (rest : string) :
  PlanTypeFromSku (String "E" (String "P" rest))
  = if PlanIsElastic (Some (String "E" (String "P" rest)))
    then ServicePlanTypeElastic else "unknown".
Proof.
  unfold PlanTypeFromSku.
  replace (PlanIsPremium (String "E" (String "P" rest))) with false by reflexivity.
  replace (PlanIsWorkflow (Some (String "E" (String "P" rest)))) with false by reflexivity.
  replace (PlanIsConsumption (Some (String "E" (String "P" rest)))) with false by reflexivity.
  replace (PlanIsFlexConsumption (Some (String "E" (String "P" rest)))) with false
    by reflexivity.
  replace (PlanIsIsolated (Some (String "E" (String "P" rest)))) with false by reflexivity.
  replace (PlanIsAppPlan (Some (String "E" (String "P" rest)))) with false by reflexivity.
  reflexivity.
Qed.

Lemma PlanTypeFromSku_WS (rest : string) :
  PlanTypeFromSku (String "W" (String "S" rest))
  = if PlanIsWorkflow (Some (String "W" (String "S" rest)))
    then ServicePlanTypeWorkflow else "unknown".
Proof.
  unfold PlanTypeFromSku.
  replace (PlanIsPremium (String "W" (String "S" rest))) with false by reflexivity.
  replace (PlanIsConsumption (Some (String "W" (String "S" rest)))) with false by reflexivity.
  replace (PlanIsFlexConsumption (Some (String "W" (String "S" rest)))) with false
    by reflexivity.
  replace (PlanIsElastic (Some (String "W" (String "S" rest)))) with false by reflexivity.
  replace (PlanIsIsolated (Some (String "W" (String "S" rest)))) with false by reflexivity.
  replace (PlanIsAppPlan (Some (String "W" (String "S" rest)))) with false by reflexivity.
  reflexivity.
Qed.

(** X4. A code that supports scale-out is never classified premium,
    consumption, flex-consumption, isolated or app-plan: with the prefix
    ["EP"] it is elastic or unknown, with the prefix ["WS"] workflow or
    unknown; a classified one therefore supports zone balancing too. *)
Theorem PlanSupportsScaleOut_category (plan : string) :
  PlanSupportsScaleOut plan = true ->
  (strings.HasPrefix plan "EP" = true ->
     PlanTypeFromSku plan = ServicePlanTypeElastic \/ PlanTypeFromSku plan = "unknown") /\
  (strings.HasPrefix plan "WS" = true ->
     PlanTypeFromSku plan = ServicePlanTypeWorkflow \/ PlanTypeFromSku plan = "unknown") /\
  (PlanTypeFromSku plan <> "unknown" -> PlanSupportsZoneBalancing plan = true).
Proof.
  intros Hscale.
  assert (Hep : strings.HasPrefix plan "EP" = true ->
     PlanTypeFromSku plan = ServicePlanTypeElastic \/ PlanTypeFromSku plan = "unknown").
  { intros H. apply HasPrefix_spec in H as [rest ->].
    change ("EP" +:+ rest) with (String "E" (String "P" rest)).
    rewrite PlanTypeFromSku_EP. destruct (PlanIsElastic _); auto. }
  assert (Hws : strings.HasPrefix plan "WS" = true ->
     PlanTypeFromSku plan = ServicePlanTypeWorkflow \/ PlanTypeFromSku plan = "unknown").
  { intros H. apply HasPrefix_spec in H as [rest ->].
    change ("WS" +:+ rest) with (String "W" (String "S" rest)).
    rewrite PlanTypeFromSku_WS. destruct (PlanIsWorkflow _); auto. }
  split; [exact Hep|]. split; [exact Hws|].
  intros Hknown. unfold PlanSupportsScaleOut in Hscale.
  apply orb_true_iff in Hscale as [H|H]; unfold PlanSupportsZoneBalancing.
  - destruct (Hep H) as [-> | Hu]; [reflexivity | contradiction].
  - destruct (Hws H) as [-> | Hu]; [reflexivity | contradiction].
Qed.

(** X5. On the known SKUs, as the tables spell them, the prefix rule and the
    classification agree: a known SKU supports scale-out exactly when it is
    classified elastic or workflow. *)
Theorem known_skus_scale_out (c : string) :
  In c AllKnownServicePlanSkus ->
  (PlanSupportsScaleOut c = true <->
   PlanTypeFromSku c = ServicePlanTypeElastic \/ PlanTypeFromSku c = ServicePlanTypeWorkflow).
Proof.
  intros H. simpl in H.
  repeat (destruct H as [<- | H];
          [vm_compute; split;
           [ intros Hs; first [discriminate Hs | now left | now right]
           | intros [Hd|Hd]; first [reflexivity | discriminate Hd] ] |]).
  contradiction.
Qed.

Hypothesis laws : CaseFoldingLaws CF.

(** X1. The categories are mutually exclusive: a code matches the entries of
    at most one consulted table, so the priority order never decides. *)
Theorem at_most_one_table (input : string) (t1 t2 : list string * string) :
  In t1 priorityTables -> In t2 priorityTables ->
  existsb (strings.EqualFold input) (fst t1) = true ->
  existsb (strings.EqualFold input) (fst t2) = true ->
  t1 = t2.
Proof.
  intros H1 H2 Hm1 Hm2.
  apply existsb_exists in Hm1 as (v1 & Hv1 & He1).
  apply existsb_exists in Hm2 as (v2 & Hv2 & He2).
  destruct (decide (t1 = t2)) as [|Hne]; [assumption|exfalso].
  pose proof (tables_apart t1 t2 v1 v2 H1 H2 Hne Hv1 Hv2) as Hapart.
  rewrite (EqualFold_trans laws v1 input v2) in Hapart;
    [discriminate | now apply EqualFold_sym | assumption].
Qed.

(** A code is given the category of a table exactly when it matches the
    table. *)
Lemma category_iff_match (input : string) (t : list string * string) :
  In t priorityTables ->
  (PlanTypeFromSku input = snd t <-> existsb (strings.EqualFold input) (fst t) = true).
Proof.
  intros Ht. rewrite PlanTypeFromSku_tables. unfold ClassifyPlan_spec.
  destruct (find _ priorityTables) as [tc|] eqn:Hfind.
  - apply find_some in Hfind as [Hin Hmatch]. split.
    + intros Heq. now rewrite <- (categories_distinct tc t Hin Ht Heq).
    + intros Hm. now rewrite (at_most_one_table input tc t Hin Ht Hmatch Hm).
  - split.
    + intros Heq. exfalso. revert Heq. simpl in Ht.
      repeat (destruct Ht as [<-|Ht]; [discriminate|]). contradiction.
    + intros Hm. pose proof (find_none _ _ Hfind t Ht) as Hno. cbv beta in Hno. congruence.
Qed.

(** X2. Each [PlanIs...] test agrees with [PlanTypeFromSku]: a code passes
    the test of a category exactly when it is classified in that category. *)
Theorem PlanIs_agrees_with_PlanTypeFromSku (input : string) :
  (PlanIsPremium input = true <-> PlanTypeFromSku input = ServicePlanTypePremium) /\
  (PlanIsWorkflow (Some input) = true <-> PlanTypeFromSku input = ServicePlanTypeWorkflow) /\
  (PlanIsConsumption (Some input) = true <->
     PlanTypeFromSku input = ServicePlanTypeConsumption) /\
  (PlanIsFlexConsumption (Some input) = true <->
     PlanTypeFromSku input = ServicePlanTypeFlexConsumption) /\
  (PlanIsElastic (Some input) = true <-> PlanTypeFromSku input = ServicePlanTypeElastic) /\
  (PlanIsIsolated (Some input) = true <-> PlanTypeFromSku input = ServicePlanTypeIsolated) /\
  (PlanIsAppPlan (Some input) = true <-> PlanTypeFromSku input = ServicePlanTypeAppPlan).
Proof.
  unfold PlanIsWorkflow, PlanIsConsumption, PlanIsFlexConsumption, PlanIsElastic,
    PlanIsIsolated, PlanIsAppPlan.
  rewrite PlanIsPremium_existsb, !anyEqualFold_existsb.
  repeat split;
    match goal with
    | |- existsb _ ?skus = true -> PlanTypeFromSku _ = ?cat =>
        apply (proj2 (category_iff_match input (skus, cat) ltac:(simpl; tauto)))
    | |- PlanTypeFromSku _ = ?cat -> existsb _ ?skus = true =>
        apply (proj1 (category_iff_match input (skus, cat) ltac:(simpl; tauto)))
    end.
Qed.

End ClassificationProperties.

(* ===================================================================== *)
(** * More on the Service Bus subscription data source *)
(* ===================================================================== *)

Section DataSourceProperties.
Import pluginsdk subscriptions servicebus.

Variable FivePointOh : bool.
Variable ParseTopicID : string -> error + TopicId.

Local Ltac split_key k :=
  destruct (decide (k = "name")) as [->|?];
  [|destruct (decide (k = "topic_id")) as [->|?];
  [|destruct (decide (k = "topic_name")) as [->|?];
  [|destruct (decide (k = "resource_group_name")) as [->|?];
  [|destruct (decide (k = "namespace_name")) as [->|?];
  [|destruct (decide (k = "auto_delete_on_idle")) as [->|?];
  [|destruct (decide (k = "default_message_ttl")) as [->|?];
  [|destruct (decide (k = "lock_duration")) as [->|?];
  [|destruct (decide (k = "dead_lettering_on_message_expiration")) as [->|?];
  [|destruct (decide (k = "dead_lettering_on_filter_evaluation_error")) as [->|?];
  [|destruct (decide (k = "batched_operations_enabled")) as [->|?];
  [|destruct (decide (k = "max_delivery_count")) as [->|?];
  [|destruct (decide (k = "requires_session")) as [->|?];
  [|destruct (decide (k = "forward_to")) as [->|?];
  [|destruct (decide (k = "forward_dead_lettered_messages_to")) as [->|?];
  [|destruct (decide (k = "enable_batched_operations")) as [->|?]]]]]]]]]]]]]]]].

(** The fields lines 171-194 write are the computed fields of the schema:
    each of them gets a value, every other field keeps its own. *)
Lemma setProperties_computed (d : ResourceData) (props : SBSubscriptionProperties) (k : string) :
  if isComputed (Schema_ (dataSourceServiceBusSubscription FivePointOh ParseTopicID)) k
  then is_Some (rd_values (setProperties FivePointOh d
                             (Some {| Properties := Some props |})) !! k)
  else rd_values (setProperties FivePointOh d (Some {| Properties := Some props |})) !! k
       = rd_values d !! k.
Proof.
  unfold isComputed, dataSourceServiceBusSubscription, setProperties.
  cbn [Schema_ Properties Set_ fst rd_values].
  destruct FivePointOh; cbn [negb]; split_key k; simplify_map_eq; eauto.
Qed.



(** X8. With the 5.0 flag on, the legacy fields are never read: two
    configurations with the same topic ID and the same name make the same
    request. *)
Theorem five_point_oh_ignores_legacy_fields (d d' : ResourceData) (meta : Client) :
  FivePointOh = true ->
  Get "topic_id" d = Get "topic_id" d' ->
  Get "name" d = Get "name" d' ->
  requests (dataSourceServiceBusSubscriptionRead FivePointOh ParseTopicID d meta)
  = requests (dataSourceServiceBusSubscriptionRead FivePointOh ParseTopicID d' meta).
Proof.
  intros -> Htopic Hname.
  assert (Hnames : topicNames true ParseTopicID d = topicNames true ParseTopicID d').
  { unfold topicNames. rewrite Htopic.
    destruct (assertString (Get "topic_id" d')) as [v ok].
    destruct (ok && negb (String.eqb v "")); [|reflexivity].
    destruct (ParseTopicID v); reflexivity. }
  unfold dataSourceServiceBusSubscriptionRead. rewrite Hnames, Hname.
  destruct (topicNames true ParseTopicID d') as [e|[[rg ns] topic]]; [reflexivity|].
  destruct (SubscriptionsClient_Get meta _) as [existing [e|]]; [|reflexivity].
  destruct (response.WasNotFound _); reflexivity.
Qed.

(** X9. Before 5.0 the deprecated [enable_batched_operations] is written with
    the value of [batched_operations_enabled]; with the 5.0 flag on it is not
    written at all. *)
Theorem enable_batched_operations_alias (d : ResourceData) (props : SBSubscriptionProperties) :
  let d' := setProperties FivePointOh d (Some {| Properties := Some props |}) in
  if FivePointOh
  then rd_values d' !! "enable_batched_operations" = rd_values d !! "enable_batched_operations"
  else rd_values d' !! "enable_batched_operations"
       = rd_values d' !! "batched_operations_enabled".
Proof.
  cbv zeta. unfold setProperties. cbn [Properties Set_ fst rd_values].
  destruct FivePointOh; cbn [negb]; simplify_map_eq; reflexivity.
Qed.

End DataSourceProperties.

(* ===================================================================== *)
(** * More on the Purview account resource *)
(* ===================================================================== *)

Section PurviewProperties.
Import pluginsdk purview.

Context {R FutureC FutureD : Type}.
Variable AccountID : string -> error + AccountId.
Variable ResponseWasNotFound : HttpResponse -> bool.
Variable NormalizeNilable : option string -> string.
Variable FlattenAndSet :
  ResourceData -> gmap string (option string) -> ResourceData * option error.
Variable ID : AccountId -> string.
Variable NormalizeLocation : string -> string.
Variable Expand : option Value -> gmap string (option string).
Variable ImportAsExistsError : string -> string -> error.
Variable SplitSku : string -> string * Z * option error.
Variable client : AccountsClient R FutureC FutureD.

(** X10. The read changes the stored ID in one case only: [client.Get]
    failed with a not-found answer, and then the ID is cleared and no error
    is returned. In every other case, failing or not, the stored ID is the
    one the read started with (given that [tags.FlattenAndSet] keeps it). *)
Theorem read_keeps_or_clears_id (d : ResourceData) (meta : Client) :
  (forall d' t, Id (fst (FlattenAndSet d' t)) = Id d') ->
  let result :=
    resourcePurviewAccountRead AccountID ResponseWasNotFound NormalizeNilable
      FlattenAndSet d meta in
  Id (fst result) = Id d \/
  (exists id resp e,
     AccountID (Id d) = inr id /\
     AccountsClient_Get meta (ResourceGroup id) (Name id) = (resp, Some e) /\
     ResponseWasNotFound (Response resp) = true /\
     result = (SetId "" d, None)).
Proof.
  intros Hkeep. cbv zeta. unfold resourcePurviewAccountRead.
  destruct (AccountID (Id d)) as [e|id] eqn:Hid; [now left|].
  destruct (AccountsClient_Get meta _ _) as [resp [e|]] eqn:Hget.
  - destruct (ResponseWasNotFound (Response resp)) eqn:Hnf; [|now left].
    right. exists id, resp, e. auto.
  - left. cbn [Set_ fst].
    destruct (AccountsClient_ListKeys meta _ _) as [keys [e|]].
    + destruct (AccountProperties_ resp) as [props|]; [|reflexivity].
      destruct (Endpoints props); reflexivity.
    + rewrite Hkeep.
      destruct (AccountProperties_ resp) as [props|]; [|reflexivity].
      destruct (Endpoints props); reflexivity.
Qed.

(** X11. Creating never overwrites: for a new resource, unless the presence
    check answers not-found, the call fails and leaves the control plane and
    the resource data as they were. *)
Theorem create_refuses_existing (subscriptionId : string) (d : ResourceData) (r : R) :
  ResponseWasNotFound
    (Response (fst (client_Get client r (asString (Get "resource_group_name" d))
                      (asString (Get "name" d))))) = false ->
  exists e,
    resourcePurviewAccountCreateUpdate AccountID ResponseWasNotFound NormalizeNilable
      FlattenAndSet ID NormalizeLocation Expand ImportAsExistsError SplitSku
      client subscriptionId true d r
    = (r, d, Some e).
Proof.
  intros Hfound. unfold resourcePurviewAccountCreateUpdate. cbn [ResourceGroup Name].
  destruct (client_Get client r _ _) as [existing [e|]]; cbn [fst] in Hfound;
    rewrite Hfound; cbn [negb]; eexists; reflexivity.
Qed.

(** X12. The resource data changes only after the create or update has
    completed: either the call fails and the data is as it was, or
    [CreateOrUpdate] and the wait on its future both succeeded, and then the
    ID of the account is stored and the outcome is that of the read at the
    control plane the wait left. *)
Theorem create_update_outcome
    (subscriptionId : string) (isNew : bool) (d : ResourceData) (r : R) :
  let id := {| SubscriptionId := subscriptionId;
               ResourceGroup := asString (Get "resource_group_name" d);
               Name := asString (Get "name" d) |} in
  let result :=
    resourcePurviewAccountCreateUpdate AccountID ResponseWasNotFound NormalizeNilable
      FlattenAndSet ID NormalizeLocation Expand ImportAsExistsError SplitSku
      client subscriptionId isNew d r in
  (snd (fst result) = d /\ snd result <> None) \/
  (exists r1 future r2,
     client_CreateOrUpdate client r (ResourceGroup id) (Name id)
       (accountPayload NormalizeLocation Expand SplitSku d) = (r1, future, None) /\
     client_WaitCreateOrUpdate client r1 future = (r2, None) /\
     fst (fst result) = r2 /\
     (snd (fst result), snd result)
     = resourcePurviewAccountRead AccountID ResponseWasNotFound NormalizeNilable
         FlattenAndSet (SetId (ID id) d) (clientAt client r2)).
Proof.
  cbv zeta. unfold resourcePurviewAccountCreateUpdate. cbn [ResourceGroup Name].
  match goal with
  | |- context [match ?p with Some err => (r, d, Some err) | None => _ end] =>
      destruct p as [e|]
  end; [left; split; [reflexivity | discriminate]|].
  destruct (client_CreateOrUpdate client r _ _ _) as [[r1 future] [e|]] eqn:Hcreate;
    [left; split; [reflexivity | discriminate]|].
  destruct (client_WaitCreateOrUpdate client r1 future) as [r2 [e|]] eqn:Hwait;
    [left; split; [reflexivity | discriminate]|].
  right. exists r1, future, r2.
  destruct (resourcePurviewAccountRead _ _ _ _ _ _) as [d' e']. auto.
Qed.


(** X14. The delete returns no error exactly when the stored ID parses and
    both [Delete] and the wait on its future succeed; when the ID does not
    parse, the control plane is not touched. *)
Theorem delete_outcome (d : ResourceData) (r : R) :
  let result := resourcePurviewAccountDelete AccountID client d r in
  (snd result = None <->
   exists id r1 future,
     AccountID (Id d) = inr id /\
     client_Delete client r (ResourceGroup id) (Name id) = (r1, future, None) /\
     snd (client_WaitDelete client r1 future) = None) /\
  (forall e, AccountID (Id d) = inl e -> result = (r, Some e)).
Proof.
  cbv zeta. unfold resourcePurviewAccountDelete.
  destruct (AccountID (Id d)) as [e|id].
  - split; [|intros e' [= <-]; reflexivity].
    split; [discriminate | intros (id & r1 & future & Hid & _); discriminate Hid].
  - split; [|discriminate].
    destruct (client_Delete client r _ _) as [[r1 future] [e|]] eqn:Hdel.
    + split; [discriminate|].
      intros (id' & r1' & future' & [= <-] & Hdel' & _). rewrite Hdel in Hdel'.
      discriminate Hdel'.
    + destruct (client_WaitDelete client r1 future) as [r2 [e|]] eqn:Hwait; cbn [snd].
      * split; [discriminate|].
        intros (id' & r1' & future' & [= <-] & Hdel' & Hw). rewrite Hdel in Hdel'.
        injection Hdel' as <- <-. rewrite Hwait in Hw. discriminate Hw.
      * split; [|reflexivity]. intros _. exists id, r1, future.
        rewrite Hwait. auto.
Qed.

End PurviewProperties.

(* ===================================================================== *)
(** * The plan of an app *)
(* ===================================================================== *)

Section PlanInfoProperties.
Import planinfo.

Variable ParseAppServicePlanIDInsensitively : string -> error + AppServicePlanId.
Variable ToLower : string -> string.

(** X15. [ServicePlanInfoForApp] never returns a value next to an error:
    with an error both results are nil; without one the OS type is ["linux"]
    or ["windows"]. *)
Theorem ServicePlanInfoForApp_results
    (metadata : Clients) (id : AppServiceId)
    (osType planSku : option string) (err : option error) :
  ServicePlanInfoForApp ParseAppServicePlanIDInsensitively ToLower metadata id
  = Returned (osType, planSku, err) ->
  (err <> None -> osType = None /\ planSku = None) /\
  (err = None -> osType = Some "linux" \/ osType = Some "windows").
Proof.
  unfold ServicePlanInfoForApp.
  repeat match goal with
  | |- context [let '(_, _) := ?p in _] => destruct p
  | |- context [match ?x with _ => _ end] => destruct x
  end; intros [= <- <- <-]; split; intros H; auto; try discriminate; congruence.
Qed.

(** X16. The plan answer is not guarded as the site answer is: when the plan
    lookup returns neither an error nor a model, reading [sp.Model.Kind]
    dereferences nil; this is the only way the function panics. *)
Theorem ServicePlanInfoForApp_panics (metadata : Clients) (id : AppServiceId) :
  ServicePlanInfoForApp ParseAppServicePlanIDInsensitively ToLower metadata id = Panicked
  <-> exists model props serverFarmId servicePlanId,
        WebAppsClient_Get metadata id = ({| site_Model := Some model |}, None) /\
        Properties model = Some props /\
        ServerFarmId props = Some serverFarmId /\
        ParseAppServicePlanIDInsensitively serverFarmId = inr servicePlanId /\
        ServicePlanClient_Get metadata servicePlanId = ({| plan_Model := None |}, None).
Proof.
  unfold ServicePlanInfoForApp. split.
  - destruct (WebAppsClient_Get metadata id) as [[[model|]] [e|]]; try discriminate.
    cbn [site_Model].
    destruct (Properties model) as [props|] eqn:Hp; [|discriminate].
    destruct (ServerFarmId props) as [serverFarmId|] eqn:Hs; [|discriminate].
    destruct (ParseAppServicePlanIDInsensitively serverFarmId) as [e|servicePlanId] eqn:Hparse;
      [discriminate|].
    destruct (ServicePlanClient_Get metadata servicePlanId) as [[[plan|]] [e|]] eqn:Hplan;
      try discriminate; cbn [plan_Model].
    + destruct (Kind plan); discriminate.
    + intros _. exists model, props, serverFarmId, servicePlanId. auto.
  - intros (model & props & serverFarmId & servicePlanId & -> & Hp & Hs & Hparse & Hplan).
    cbn [site_Model]. rewrite Hp, Hs, Hparse, Hplan. reflexivity.
Qed.

(** X17. The slot variant decides as the app variant: when [GetSlot] answers
    for the slot what [Get] answers for the app, both return the same OS
    type and SKU, fail together and panic together. *)
Theorem ServicePlanInfoForAppSlot_agrees
    (metadata : Clients) (id : AppServiceId) (slot : SlotId) :
  WebAppsClient_GetSlot metadata slot = WebAppsClient_Get metadata id ->
  observed (ServicePlanInfoForAppSlot ParseAppServicePlanIDInsensitively ToLower metadata slot)
  = observed (ServicePlanInfoForApp ParseAppServicePlanIDInsensitively ToLower metadata id).
Proof.
  intros Hsame. unfold ServicePlanInfoForAppSlot, ServicePlanInfoForApp. rewrite Hsame.
  destruct (WebAppsClient_Get metadata id) as [[[model|]] [e|]]; try reflexivity.
  cbn [site_Model].
  destruct (Properties model) as [props|]; [|reflexivity].
  destruct (ServerFarmId props) as [serverFarmId|]; [|reflexivity].
  destruct (ParseAppServicePlanIDInsensitively serverFarmId) as [e|servicePlanId];
    [reflexivity|].
  destruct (ServicePlanClient_Get metadata servicePlanId) as [[[plan|]] [e|]];
    try reflexivity.
  cbn [plan_Model]. destruct (Kind plan); reflexivity.
Qed.

End PlanInfoProperties.

(* ===================================================================== *)
(** * The further properties on concrete inputs *)
(* ===================================================================== *)

Section MoreInstances.
Import strings resourceids helpers pluginsdk subscriptions.
#[local] Existing Instance asciiFolding.

(** ["ep1"] matches the elastic table; the table it matches is that one. *)
Lemma at_most_one_table_at_ep1 :
  In (elasticSkus, ServicePlanTypeElastic) priorityTables /\
  existsb (strings.EqualFold "ep1") elasticSkus = true /\
  (elasticSkus, ServicePlanTypeElastic) = (elasticSkus, ServicePlanTypeElastic).
Proof.
  assert (Hin : In (elasticSkus, ServicePlanTypeElastic) priorityTables)
    by (simpl; tauto).
  split; [exact Hin|]. split; [reflexivity|].
  exact (at_most_one_table asciiFolding_laws "ep1" _ _ Hin Hin eq_refl eq_refl).
Defined.

Lemma PlanSupportsScaleOut_category_at_EP9 :
  PlanSupportsScaleOut "EP9" = true /\
  (PlanTypeFromSku "EP9" = ServicePlanTypeElastic \/ PlanTypeFromSku "EP9" = "unknown").
Proof.
  split; [reflexivity|].
  exact (proj1 (PlanSupportsScaleOut_category (CF := asciiFolding) "EP9" eq_refl) eq_refl).
Defined.

Lemma known_skus_scale_out_at_WS2 :
  In "WS2" AllKnownServicePlanSkus /\
  (PlanSupportsScaleOut "WS2" = true <->
   PlanTypeFromSku "WS2" = ServicePlanTypeElastic \/
   PlanTypeFromSku "WS2" = ServicePlanTypeWorkflow).
Proof.
  assert (Hin : In "WS2" AllKnownServicePlanSkus) by (vm_compute; tauto).
  split; [exact Hin|].
  exact (known_skus_scale_out (CF := asciiFolding) "WS2" Hin).
Defined.


Lemma five_point_oh_ignores_legacy_fields_at_samples :
  servicebus.requests
    (servicebus.dataSourceServiceBusSubscriptionRead true ParseTopicID bothSupplied emptyClient)
  = servicebus.requests
      (servicebus.dataSourceServiceBusSubscriptionRead true ParseTopicID topicOnly emptyClient).
Proof.
  apply five_point_oh_ignores_legacy_fields; vm_compute; reflexivity.
Defined.

Lemma read_keeps_or_clears_id_at_storedAccount :
  Id (fst (samplePurviewRead storedAccount failingListKeys)) = Id storedAccount.
Proof.
  destruct (read_keeps_or_clears_id codecAccountID response.WasNotFound
              sampleNormalizeNilable sampleFlattenAndSet storedAccount failingListKeys
              (fun _ _ => eq_refl)) as [Hkept | (id & resp & e & _ & Hget & _)].
  - exact Hkept.
  - discriminate Hget.
Defined.

Lemma create_refuses_existing_at_occupiedPlane :
  exists e, sampleCreateUpdate occupiedPlane true newAccount = (tt, newAccount, Some e).
Proof.
  apply create_refuses_existing. reflexivity.
Defined.


Lemma ServicePlanInfoForApp_results_at_linuxClients :
  planinfo.ServicePlanInfoForApp samplePlanParse (fun s => s) linuxClients sampleApp
  = planinfo.Returned (Some "linux", Some "EP1", None) /\
  (Some "linux" = Some "linux" \/ Some "linux" = Some "windows").
Proof.
  split; [reflexivity|].
  exact (proj2 (ServicePlanInfoForApp_results samplePlanParse (fun s => s) linuxClients
                  sampleApp (Some "linux") (Some "EP1") None eq_refl) eq_refl).
Defined.

Lemma ServicePlanInfoForAppSlot_agrees_at_linuxClients :
  planinfo.observed
    (planinfo.ServicePlanInfoForAppSlot samplePlanParse (fun s => s) linuxClients sampleSlot)
  = planinfo.observed
      (planinfo.ServicePlanInfoForApp samplePlanParse (fun s => s) linuxClients sampleApp).
Proof.
  apply ServicePlanInfoForAppSlot_agrees. reflexivity.
Defined.

Lemma PlanIs_agrees_with_PlanTypeFromSku_at_ep1 :
  PlanIsElastic (Some "ep1") = true <-> PlanTypeFromSku "ep1" = ServicePlanTypeElastic.
Proof.
  exact (proj1 (proj2 (proj2 (proj2 (proj2
           (PlanIs_agrees_with_PlanTypeFromSku asciiFolding_laws "ep1")))))).
Defined.

End MoreInstances.
